(** * Notification dispatch of the transit-card backend

    A shallow embedding of [BACKEND_INTEGRATION_EXAMPLE.py]: the
    [NotificationManager] connection registry, the notification endpoints
    over the [notification_logs] table, and the two monitoring services,
    with the [User] model of [src/models/user.py].

    Python code that mutates shared objects and may raise is embedded in a
    state-and-exception monad [M]: a computation takes the program state and
    yields either a value or a raised exception, together with the state
    reached at that point (an exception does not undo earlier mutations). *)

From Stdlib Require Import QArith Qabs.
From stdpp Require Import gmap strings list pretty sorting.

Open Scope Z_scope.

(** ** Values exchanged with the outside *)

(** JSON payloads ([dict] literals keep their insertion order, hence an
    association list). A Python [float] is carried as the rational it
    denotes; [JIso t] is [created_at.isoformat()] of the instant [t]. *)
#[warnings="-register-all"]
Inductive Json :=
| JNull
| JBool (b : bool)
| JInt (z : Z)
| JFloat (q : Q)
| JStr (s : string)
| JIso (t : Z)
| JList (l : list Json)
| JDict (l : list (string * Json)).

Abbreviation Message := (list (string * Json)).

(** A [WebSocket] object is compared by identity. *)
Abbreviation WebSocket := nat (only parsing).

(** The errors the program meets, all of them subclasses of [Exception]
    (what [except Exception] catches). *)
Inductive Exception :=
| HTTPException (status_code : Z) (detail : string)
| ValueError (msg : string)
| RuntimeError (msg : string)
| OperationalError (msg : string)
| AttributeError (msg : string).

(** [str(e)], as used in the f-strings and in [detail=str(e)]; an
    [HTTPException] renders as its status code and detail. *)
Definition str (e : Exception) : string :=
  match e with
  | HTTPException status_code detail => pretty status_code +:+ ": " +:+ detail
  | ValueError msg => msg
  | RuntimeError msg => msg
  | OperationalError msg => msg
  | AttributeError msg => msg
  end.

(** ** Database models *)

Module UserLine.
Record t := { id : Z; user_id : Z; line_id : Z }.
End UserLine.

Module TransitLine.
Record t := {
  id : Z;
  name : string;
  description : string;
  current_delay : Z;
  delay_reason : option string;
  updated_at : Z
}.
End TransitLine.

Module NotificationLog.
Record t := {
  id : Z;
  user_id : Z;
  notification_type : string;
  title : string;
  message : string;
  read : bool;
  created_at : Z
}.

(** [notification.read = b]. *)
Definition set_read (b : bool) (n : t) : t :=
  {| id := id n; user_id := user_id n;
     notification_type := notification_type n;
     title := title n; message := message n;
     read := b; created_at := created_at n |}.
End NotificationLog.

(** The [User] model of [src/models/user.py]. Its balance is the nullable
    float column [card_balance] (a finite float is carried as the rational it
    denotes); the class has no attribute [balance]. *)
Module User.
Record t := {
  id : Z;
  username : string;
  email : string;
  password : string;
  card_balance : option Q;
  created_at : Z
}.
End User.

(** ** Program state *)

(** The SQLAlchemy session [db]. [rows] is the [notification_logs] table as
    the session sees it (pending rows included: a query autoflushes),
    [durable] the table as of the last [commit]. [fault], when set, is the
    error every round trip to the database raises (store unavailable). *)
Record Session := {
  user_lines : list UserLine.t;
  transit_lines : list TransitLine.t;
  users : list User.t;
  rows : list NotificationLog.t;
  durable : list NotificationLog.t;
  next_id : Z;
  fault : option Exception
}.

(** What the program does to the outside, oldest first. *)
Inductive Event :=
| EvSend (connection : WebSocket) (message : Message)
| EvPrint (line : string)
| EvSleep (seconds : Z).

(** [active_connections] is the dict of the [notification_manager]
    singleton. [broken] lists the connections whose remote end is gone, with
    the error their [accept] and [send_json] raise. [clock] is
    [datetime.utcnow()] in seconds. *)
Record State := {
  db : Session;
  active_connections : gmap Z (list WebSocket);
  broken : gmap WebSocket Exception;
  clock : Z;
  trace : list Event
}.

Definition with_db (f : Session → Session) (s : State) : State :=
  {| db := f (db s); active_connections := active_connections s;
     broken := broken s; clock := clock s; trace := trace s |}.

Definition with_connections
    (f : gmap Z (list WebSocket) → gmap Z (list WebSocket)) (s : State) : State :=
  {| db := db s; active_connections := f (active_connections s);
     broken := broken s; clock := clock s; trace := trace s |}.

Definition with_clock (f : Z → Z) (s : State) : State :=
  {| db := db s; active_connections := active_connections s;
     broken := broken s; clock := f (clock s); trace := trace s |}.

Definition emit_all (evs : list Event) (s : State) : State :=
  {| db := db s; active_connections := active_connections s;
     broken := broken s; clock := clock s; trace := trace s ++ evs |}.

Definition emit (e : Event) (s : State) : State := emit_all [e] s.

Definition with_rows (f : list NotificationLog.t → list NotificationLog.t)
    (d : Session) : Session :=
  {| user_lines := user_lines d; transit_lines := transit_lines d;
     users := users d; rows := f (rows d); durable := durable d;
     next_id := next_id d; fault := fault d |}.

(** ** The monad of statements *)

Inductive Result (A : Type) :=
| Ok (a : A)
| Raise (e : Exception).
Arguments Ok {A} a.
Arguments Raise {A} e.

Definition M (A : Type) : Type := State → Result A * State.

Definition ret {A} (a : A) : M A := λ s, (Ok a, s).

Definition raise {A} (e : Exception) : M A := λ s, (Raise e, s).

Definition bind {A B} (m : M A) (k : A → M B) : M B :=
  λ s, match m s with
       | (Ok a, s') => k a s'
       | (Raise e, s') => (Raise e, s')
       end.

Notation "x <- m ;; k" := (bind m (λ x, k))
  (at level 100, m at next level, right associativity, only parsing).
Notation "m ;; k" := (bind m (λ _, k))
  (at level 100, right associativity, only parsing).

(** [try: body / except Exception as e: handler e]. *)
Definition try_except {A} (body : M A) (handler : Exception → M A) : M A :=
  λ s, match body s with
       | (Ok a, s') => (Ok a, s')
       | (Raise e, s') => handler e s'
       end.

(** [for x in l: body x]. *)
Fixpoint for_each {A} (l : list A) (body : A → M unit) : M unit :=
  match l with
  | [] => ret tt
  | x :: l' => body x ;; for_each l' body
  end.

Definition get {A} (f : State → A) : M A := λ s, (Ok (f s), s).
Definition modify (f : State → State) : M unit := λ s, (Ok tt, f s).

Definition print (line : string) : M unit := modify (emit (EvPrint line)).

(** [await asyncio.sleep(seconds)]. *)
Definition sleep (seconds : Z) : M unit :=
  modify (λ s, emit (EvSleep seconds) (with_clock (Z.add seconds) s)).

Definition exec {A} (m : M A) (s : State) : State := (m s).2.
Definition outcome {A} (m : M A) (s : State) : Result A := (m s).1.

(** ** WebSocket connections *)

Definition accept (websocket : WebSocket) : M unit :=
  λ s, match broken s !! websocket with
       | Some e => (Raise e, s)
       | None => (Ok tt, s)
       end.

Definition send_json (connection : WebSocket) (message : Message) : M unit :=
  λ s, match broken s !! connection with
       | Some e => (Raise e, s)
       | None => (Ok tt, emit (EvSend connection message) s)
       end.

(** ** NotificationManager *)

(** [list.remove(x)]: drops the first occurrence; [None] stands for the
    [ValueError] raised when there is none. *)
Fixpoint list_remove (x : WebSocket) (l : list WebSocket) : option (list WebSocket) :=
  match l with
  | [] => None
  | y :: l' => if decide (y = x) then Some l'
               else cons y <$> list_remove x l'
  end.

Definition connect (websocket : WebSocket) (user_id : Z) : M unit :=
  accept websocket ;;
  modify (with_connections (λ ac,
    let ac' := match ac !! user_id with
               | None => <[user_id := []]> ac
               | Some _ => ac
               end in
    alter (λ conns, conns ++ [websocket]) user_id ac')).

Definition disconnect (user_id : Z) (websocket : WebSocket) : M unit :=
  λ s, match active_connections s !! user_id with
       | Some conns =>
           match list_remove websocket conns with
           | None => (Raise (ValueError "list.remove(x): x not in list"), s)
           | Some conns' =>
               (Ok tt,
                with_connections (λ ac,
                  let ac' := <[user_id := conns']> ac in
                  match conns' with
                  | [] => delete user_id ac'
                  | _ :: _ => ac'
                  end) s)
           end
       | None => (Ok tt, s)
       end.

Definition broadcast_to_user (user_id : Z) (message : Message) : M unit :=
  λ s, match active_connections s !! user_id with
       | Some conns =>
           for_each conns (λ connection,
             try_except (send_json connection message)
               (λ e, print ("Erro ao enviar mensagem: " +:+ str e))) s
       | None => (Ok tt, s)
       end.

(** A call on the registry, for sequences of operations. An exception
    raised by one call is handled by its caller; the registry lives on. *)
Inductive RegistryCall :=
| Connect (websocket : WebSocket) (user_id : Z)
| Disconnect (user_id : Z) (websocket : WebSocket)
| BroadcastToUser (user_id : Z) (message : Message).

Definition registry_call (c : RegistryCall) : M unit :=
  match c with
  | Connect websocket user_id => connect websocket user_id
  | Disconnect user_id websocket => disconnect user_id websocket
  | BroadcastToUser user_id message => broadcast_to_user user_id message
  end.

Definition run_registry_calls (cs : list RegistryCall) (s : State) : State :=
  foldl (λ s c, exec (registry_call c) s) s cs.

(** No user is mapped to an empty list of connections. *)
Definition no_empty_entries (ac : gmap Z (list WebSocket)) : Prop :=
  ∀ user_id, ac !! user_id ≠ Some [].

(** ** The session's operations *)

(** A round trip to the database raises the session's fault, if any. *)
Definition round_trip : M unit :=
  λ s, match fault (db s) with
       | Some e => (Raise e, s)
       | None => (Ok tt, s)
       end.

(** [db.query(Model).filter(P).all()]. *)
Definition query {A} (table : Session → list A) (P : A → Prop)
    `{∀ x, Decision (P x)} : M (list A) :=
  round_trip ;; get (λ s, filter P (table (db s))).

(** [db.add(NotificationLog(...))]: the row gets the next primary key and the
    [created_at] default. *)
Definition insert_row (now user_id : Z)
    (notification_type title message : string) (read : bool) (d : Session)
    : Session :=
  {| user_lines := user_lines d; transit_lines := transit_lines d;
     users := users d;
     rows := rows d ++
       [ {| NotificationLog.id := next_id d;
            NotificationLog.user_id := user_id;
            NotificationLog.notification_type := notification_type;
            NotificationLog.title := title;
            NotificationLog.message := message;
            NotificationLog.read := read;
            NotificationLog.created_at := now |} ];
     durable := durable d; next_id := next_id d + 1; fault := fault d |}.

Definition db_add (user_id : Z) (notification_type title message : string)
    (read : bool) : M unit :=
  modify (λ s, with_db
    (insert_row (clock s) user_id notification_type title message read) s).

Definition commit (d : Session) : Session :=
  {| user_lines := user_lines d; transit_lines := transit_lines d;
     users := users d; rows := rows d; durable := rows d;
     next_id := next_id d; fault := fault d |}.

Definition db_commit : M unit := round_trip ;; modify (with_db commit).

Definition rollback (d : Session) : Session := with_rows (λ _, durable d) d.

Definition db_rollback : M unit := modify (with_db rollback).

(** [row.read = True] on the object returned by [.first()]: the first row
    that satisfies the filter. *)
Fixpoint update_first (P : NotificationLog.t → Prop) `{∀ x, Decision (P x)}
    (f : NotificationLog.t → NotificationLog.t) (l : list NotificationLog.t)
    : list NotificationLog.t :=
  match l with
  | [] => []
  | n :: l' => if decide (P n) then f n :: l' else n :: update_first P f l'
  end.

(** [query.filter(P).update(...)]: every row that satisfies the filter. *)
Definition update_all (P : NotificationLog.t → Prop) `{∀ x, Decision (P x)}
    (f : NotificationLog.t → NotificationLog.t) (l : list NotificationLog.t)
    : list NotificationLog.t :=
  (λ n, if decide (P n) then f n else n) <$> l.

(** ** Notification endpoints *)

Inductive Response := JSONResponse (content : Json).

Definition success : Response :=
  JSONResponse (JDict [("status", JStr "success")]).

Definition timedelta_days (days : Z) : Z := days * 86400.

Definition notification_json (n : NotificationLog.t) : Json :=
  JDict [("id", JInt (NotificationLog.id n));
         ("title", JStr (NotificationLog.title n));
         ("message", JStr (NotificationLog.message n));
         ("type", JStr (NotificationLog.notification_type n));
         ("read", JBool (NotificationLog.read n));
         ("created_at", JIso (NotificationLog.created_at n))].

(** [order_by(NotificationLog.created_at.desc())]. *)
Definition created_at_desc (a b : NotificationLog.t) : Prop :=
  NotificationLog.created_at b ≤ NotificationLog.created_at a.

#[local] Instance created_at_desc_dec a b : Decision (created_at_desc a b) :=
  Z_le_dec _ _.

Definition get_notifications (current_user : User.t) : M Response :=
  try_except
    (seven_days_ago <- get (λ s, clock s - timedelta_days 7) ;;
     notifications <- query rows (λ n,
       NotificationLog.user_id n = User.id current_user ∧
       seven_days_ago ≤ NotificationLog.created_at n) ;;
     let notifications := merge_sort created_at_desc notifications in
     let notifications_data := notification_json <$> notifications in
     ret (JSONResponse (JDict [("notifications", JList notifications_data)])))
    (λ e, raise (HTTPException 500 (str e))).

Definition mark_notification_read (notification_id : Z) (current_user : User.t)
    : M Response :=
  let matching := λ n,
    NotificationLog.id n = notification_id ∧
    NotificationLog.user_id n = User.id current_user in
  try_except
    (notifications <- query rows matching ;;
     match head notifications with
     | None => raise (HTTPException 404 "Notificação não encontrada")
     | Some _ =>
         modify (with_db (with_rows
           (update_first matching (NotificationLog.set_read true)))) ;;
         db_commit ;;
         ret success
     end)
    (λ e, raise (HTTPException 500 (str e))).

Definition mark_all_notifications_read (current_user : User.t) : M Response :=
  try_except
    (round_trip ;;
     modify (with_db (with_rows
       (update_all
          (λ n, NotificationLog.user_id n = User.id current_user ∧
                NotificationLog.read n = false)
          (NotificationLog.set_read true)))) ;;
     db_commit ;;
     ret success)
    (λ e, raise (HTTPException 500 (str e))).

(** ** Delay monitoring *)

Definition line_delay_event (line : TransitLine.t) (delay_minutes : Z)
    (reason : string) : Message :=
  [("type", JStr "line_delay");
   ("line_id", JInt (TransitLine.id line));
   ("line_name", JStr (TransitLine.name line));
   ("delay_minutes", JInt delay_minutes);
   ("reason", JStr reason)].

Definition line_delay_title (line : TransitLine.t) : string :=
  "Atraso na " +:+ TransitLine.name line.

Definition line_delay_message (delay_minutes : Z) (reason : string) : string :=
  "Motivo: " +:+ reason +:+ ". Tempo estimado de atraso: "
    +:+ pretty delay_minutes +:+ " minutos.".

Definition notify_users_about_line_delay (line : TransitLine.t)
    (delay_minutes : Z) (reason : string) : M unit :=
  try_except
    (user_lines <- query user_lines
       (λ ul, UserLine.line_id ul = TransitLine.id line) ;;
     for_each user_lines (λ user_line,
       db_add (UserLine.user_id user_line) "line_delay"
         (line_delay_title line)
         (line_delay_message delay_minutes reason) false ;;
       broadcast_to_user (UserLine.user_id user_line)
         (line_delay_event line delay_minutes reason)) ;;
     db_commit)
    (λ e, print ("Erro ao notificar usuários: " +:+ str e) ;; db_rollback).

(** The [try] block of one round of [monitor_line_delays]: the comparison
    with the fetched delay and the call of [notify_users_about_line_delay]
    are commented out in the source. *)
Definition monitor_line_delays_body : M unit :=
  lines <- query transit_lines (λ _, True) ;;
  for_each lines (λ line,
    let previous_delay := TransitLine.current_delay line in
    ret tt) ;;
  sleep 60.

Definition monitor_line_delays_iteration : M unit :=
  try_except monitor_line_delays_body
    (λ e, print ("Erro ao monitorar atrasos: " +:+ str e) ;; sleep 60).

(** ** Low balance monitoring *)

Definition MIN_BALANCE : Q := 5.

(** [a < b] on finite floats. (The one float the program would read is
    [user.balance], and that read raises.) *)
Definition float_lt (a b : Q) : bool := negb (Qle_bool b a).

Definition round_half_even (q : Q) : Z :=
  let n := Qnum q in
  let d := Z.pos (Qden q) in
  match 2 * (n mod d) ?= d with
  | Lt => n / d
  | Gt => n / d + 1
  | Eq => if Z.even (n / d) then n / d else n / d + 1
  end.

Definition two_digits (n : Z) : string :=
  if n <? 10 then "0" +:+ pretty n else pretty n.

(** [f"{x:.2f}"]: two decimals, the exact value rounded half to even. *)
Definition format_2f (x : Q) : string :=
  let cents := round_half_even (Qabs x * 100) in
  (if float_lt x 0 then "-" else EmptyString)
    +:+ pretty (cents / 100) +:+ "." +:+ two_digits (cents mod 100).

(** [t.date()], as a day number, and [datetime.combine(day, datetime.min.time())]. *)
Definition date (t : Z) : Z := t / 86400.
Definition midnight (day : Z) : Z := day * 86400.

Definition low_balance_title : string := "Atenção: Saldo Baixo!".

Definition low_balance_message (balance : Q) : string :=
  "Seu saldo atual é de R$ " +:+ format_2f balance
    +:+ ". Recarregue para evitar interrupções.".

Definition low_balance_event (balance : Q) : Message :=
  [("type", JStr "low_balance");
   ("current_balance", JFloat balance);
   ("min_balance", JFloat MIN_BALANCE)].

(** Whether a row counts as today's low balance notification of the user. *)
Definition notified_since (user_id since : Z) (n : NotificationLog.t) : Prop :=
  NotificationLog.user_id n = user_id ∧
  NotificationLog.notification_type n = "low_balance" ∧
  since ≤ NotificationLog.created_at n.

#[local] Instance notified_since_dec user_id since n :
  Decision (notified_since user_id since n).
Proof. unfold notified_since. apply _. Defined.

(** [user.balance]: the [User] model has [card_balance] and no attribute
    [balance], so the read raises [AttributeError]. *)
Definition user_balance (user : User.t) : M Q :=
  raise (AttributeError "'User' object has no attribute 'balance'").

(** The body of [for user in users] in [monitor_low_balance]; [user.balance]
    is read for the comparison, for the message and for the event. *)
Definition check_low_balance (user : User.t) : M unit :=
  balance <- user_balance user ;;
  if float_lt balance MIN_BALANCE then
    today <- get (λ s, date (clock s)) ;;
    existing_notification <-
      query rows (notified_since (User.id user) (midnight today)) ;;
    match head existing_notification with
    | None =>
        balance <- user_balance user ;;
        db_add (User.id user) "low_balance" low_balance_title
          (low_balance_message balance) false ;;
        balance <- user_balance user ;;
        broadcast_to_user (User.id user) (low_balance_event balance)
    | Some _ => ret tt
    end
  else ret tt.

Definition monitor_low_balance_body : M unit :=
  users <- query users (λ _, True) ;;
  for_each users check_low_balance ;;
  db_commit ;;
  sleep 30.

Definition monitor_low_balance_iteration : M unit :=
  try_except monitor_low_balance_body
    (λ e, print ("Erro ao monitorar saldo: " +:+ str e) ;; sleep 30).

(** ** The monitor loops *)

Section Loops.

(** What the other tasks and the outside world do to the state while the
    monitor is suspended at the end of round [n]. *)
Variable outside : nat → State → State.

(** [while True: iteration], run for [fuel] rounds from round [round] on.
    The loop has no [break]: it ends only by an exception that escapes the
    iteration, and [Ok tt] says it is still running when the fuel is
    spent. *)
Fixpoint while_true (iteration : M unit) (fuel round : nat) : M unit :=
  match fuel with
  | O => ret tt
  | S fuel' =>
      iteration ;;
      modify (outside round) ;;
      while_true iteration fuel' (S round)
  end.

Definition monitor_line_delays : nat → nat → M unit :=
  while_true monitor_line_delays_iteration.

Definition monitor_low_balance : nat → nat → M unit :=
  while_true monitor_low_balance_iteration.

End Loops.

(** ** Sequences of store operations *)

Inductive StoreCall :=
| NotifyUsersAboutLineDelay (line : TransitLine.t) (delay_minutes : Z)
    (reason : string)
| MonitorLowBalanceRound
| GetNotifications (current_user : User.t)
| MarkNotificationRead (notification_id : Z) (current_user : User.t)
| MarkAllNotificationsRead (current_user : User.t)
| Outside (elapsed : Z) (fault : option Exception).

(** Between two calls the store may go down or come back and time passes. *)
Definition outside_change (elapsed : Z) (fault : option Exception)
    (s : State) : State :=
  with_clock (Z.add elapsed)
    (with_db (λ d,
       {| user_lines := user_lines d; transit_lines := transit_lines d;
          users := users d; rows := rows d; durable := durable d;
          next_id := next_id d; fault := fault |}) s).

Definition store_call (c : StoreCall) (s : State) : State :=
  match c with
  | NotifyUsersAboutLineDelay line delay_minutes reason =>
      exec (notify_users_about_line_delay line delay_minutes reason) s
  | MonitorLowBalanceRound => exec monitor_low_balance_iteration s
  | GetNotifications current_user => exec (get_notifications current_user) s
  | MarkNotificationRead notification_id current_user =>
      exec (mark_notification_read notification_id current_user) s
  | MarkAllNotificationsRead current_user =>
      exec (mark_all_notifications_read current_user) s
  | Outside elapsed fault => outside_change elapsed fault s
  end.

Definition run_store_calls (cs : list StoreCall) (s : State) : State :=
  foldl (λ s c, store_call c s) s cs.

(** The session holds no uncommitted change. *)
Definition session_clean (d : Session) : Prop := rows d = durable d.

(** ** Rows over time *)

(** A row as it was, or with its flag turned from unread to read. *)
Definition kept (n n' : NotificationLog.t) : Prop :=
  n' = n ∨
  (NotificationLog.read n = false ∧ n' = NotificationLog.set_read true n).

(** Every row of [l] is still at its place in [l']. *)
Definition rows_kept (l l' : list NotificationLog.t) : Prop :=
  ∀ i n, l !! i = Some n → ∃ n', l' !! i = Some n' ∧ kept n n'.

(** ** What a notification round writes *)

(** The rows inserted one after the other for the users [user_ids]. *)
Fixpoint new_rows (now next : Z) (notification_type title message : string)
    (user_ids : list Z) : list NotificationLog.t :=
  match user_ids with
  | [] => []
  | user_id :: user_ids' =>
      {| NotificationLog.id := next;
         NotificationLog.user_id := user_id;
         NotificationLog.notification_type := notification_type;
         NotificationLog.title := title;
         NotificationLog.message := message;
         NotificationLog.read := false;
         NotificationLog.created_at := now |}
      :: new_rows now (next + 1) notification_type title message user_ids'
  end.

Definition insert_rows (now : Z) (notification_type title message : string)
    (user_ids : list Z) (d : Session) : Session :=
  {| user_lines := user_lines d; transit_lines := transit_lines d;
     users := users d;
     rows := rows d ++
       new_rows now (next_id d) notification_type title message user_ids;
     durable := durable d;
     next_id := next_id d + Z.of_nat (length user_ids);
     fault := fault d |}.

(** The subscriptions to a line, as [notify_users_about_line_delay] reads
    them. *)
Definition subscribers (line : TransitLine.t) (d : Session) : list Z :=
  UserLine.user_id <$>
  filter (λ ul, UserLine.line_id ul = TransitLine.id line) (user_lines d).

(** ** What a fan-out does to the trace *)

(** The events of [broadcast_to_user] over the connections [conns]: a send
    on a live connection, a logged error on a broken one. *)
Definition send_events (brk : gmap WebSocket Exception) (message : Message)
    (conns : list WebSocket) : list Event :=
  (λ c, match brk !! c with
        | Some e => EvPrint ("Erro ao enviar mensagem: " +:+ str e)
        | None => EvSend c message
        end) <$> conns.

(** The events of the fan-out to a user, registered or not. *)
Definition fan_out (s : State) (user_id : Z) (message : Message) : list Event :=
  send_events (broken s) message (default [] (active_connections s !! user_id)).

(** ** The endpoint that lists the lines a user follows *)

(** [for x in l: body x], where the body updates the local variable [acc]. *)
Fixpoint for_each_acc {A B} (l : list A) (acc : B) (body : A → B → M B) : M B :=
  match l with
  | [] => ret acc
  | x :: l' => acc' <- body x acc ;; for_each_acc l' acc' body
  end.

Definition line_json (transit_line : TransitLine.t) : Json :=
  JDict [("id", JInt (TransitLine.id transit_line));
         ("name", JStr (TransitLine.name transit_line));
         ("delay", JInt (TransitLine.current_delay transit_line));
         ("reason", match TransitLine.delay_reason transit_line with
                    | Some reason => JStr reason
                    | None => JNull
                    end)].

Definition get_user_lines (current_user : User.t) : M Response :=
  try_except
    (user_lines <- query user_lines
       (λ ul, UserLine.user_id ul = User.id current_user) ;;
     lines_data <- for_each_acc user_lines [] (λ user_line lines_data,
       transit_line <- query transit_lines
         (λ tl, TransitLine.id tl = UserLine.line_id user_line) ;;
       match head transit_line with
       | Some transit_line => ret (lines_data ++ [line_json transit_line])
       | None => ret lines_data
       end) ;;
     ret (JSONResponse (JDict [("lines", JList lines_data)])))
    (λ e, raise (HTTPException 500 (str e))).

(** The line a subscription points to, as [.first()] finds it. *)
Definition followed_line (d : Session) (user_line : UserLine.t)
    : option TransitLine.t :=
  head (filter (λ tl, TransitLine.id tl = UserLine.line_id user_line)
          (transit_lines d)).

(** ** Fan-out to every user *)

(** [broadcast_to_all] walks the dict in insertion order, which the map does
    not record: [keys] is [list(self.active_connections)]. *)
Definition broadcast_to_all (keys : list Z) (message : Message) : M unit :=
  for_each keys (λ user_id, broadcast_to_user user_id message).

(** The messages put on the wire by a run of events, in order. *)
Definition sends_of (evs : list Event) : list (WebSocket * Message) :=
  omap (λ ev, match ev with
              | EvSend connection message => Some (connection, message)
              | _ => None
              end) evs.

(** ** The WebSocket endpoint *)

(** How a call of [websocket_notifications] ends: it returns, or an
    exception leaves it. [UnboundLocalError name] is the error of reading the
    local variable [name] before it was assigned. *)
Inductive Ending :=
| Returned
| Escaped (e : Exception)
| UnboundLocalError (name : string).

Section WebSocketEndpoint.

(** What the other tasks do to the state while the endpoint waits for the
    next text of its client, in round [n]. *)
Variable meanwhile : nat → State → State.

(** [while True: data = await websocket.receive_text()]: the client sends
    [frames] texts, which are ignored, and then the connection ends with the
    error [closing]. (With a client that never leaves, the call never
    ends.) *)
Fixpoint receive_loop (frames round : nat) (closing : Exception) : M unit :=
  match frames with
  | O => modify (meanwhile round) ;; raise closing
  | S frames' =>
      modify (meanwhile round) ;; receive_loop frames' (S round) closing
  end.

(** [get_current_user_from_token] is not part of the file: its result for
    the token of the call is an argument. *)
Definition websocket_notifications (websocket : WebSocket)
    (get_current_user_from_token : Result User.t) (frames : nat)
    (closing : Exception) (s : State) : Ending * State :=
  let '(current_user, (tried, s1)) :=
    match get_current_user_from_token with
    | Raise e => (None, (Raise e, s))
    | Ok current_user =>
        (Some current_user,
         (connect websocket (User.id current_user) ;;
          receive_loop frames 0 closing) s)
    end in
  let s2 :=
    match tried with
    | Raise e => emit (EvPrint ("Erro no WebSocket: " +:+ str e)) s1
    | Ok _ => s1
    end in
  match current_user with
  | None => (UnboundLocalError "current_user", s2)
  | Some current_user =>
      match disconnect (User.id current_user) websocket s2 with
      | (Ok _, s3) => (Returned, s3)
      | (Raise e, s3) => (Escaped e, s3)
      end
  end.

End WebSocketEndpoint.

(** ** Concrete states *)

Definition empty_session : Session :=
  {| user_lines := []; transit_lines := []; users := []; rows := [];
     durable := []; next_id := 1; fault := None |}.

(** The state at start-up: [NotificationManager()] has no connection. *)
Definition initial_state : State :=
  {| db := empty_session; active_connections := ∅; broken := ∅;
     clock := 0; trace := [] |}.

Definition linha_101 : TransitLine.t :=
  {| TransitLine.id := 101; TransitLine.name := "Linha 101";
     TransitLine.description := "Centro/Bairro";
     TransitLine.current_delay := 0; TransitLine.delay_reason := None;
     TransitLine.updated_at := 0 |}.

Definition ana : User.t :=
  {| User.id := 1; User.username := "ana"; User.email := "ana@example.org";
     User.password := "pbkdf2:sha256"; User.card_balance := Some (7 # 2);
     User.created_at := 0 |}.

Definition rui : User.t :=
  {| User.id := 2; User.username := "rui"; User.email := "rui@example.org";
     User.password := "pbkdf2:sha256"; User.card_balance := Some (5 # 1);
     User.created_at := 0 |}.

(** Ana follows line 101 and is connected on two devices, the first of which
    has lost its remote end; Ana's card balance is 3.50 and Rui's is 5.00. *)
Definition demo_state : State :=
  {| db := {| user_lines :=
                [ {| UserLine.id := 1; UserLine.user_id := 1;
                     UserLine.line_id := 101 |} ];
              transit_lines := [linha_101];
              users := [ana; rui];
              rows := []; durable := []; next_id := 1; fault := None |};
     active_connections := {[ 1 := [10%nat; 11%nat] ]};
     broken := {[ 10%nat := RuntimeError "connection closed" ]};
     clock := 1000;
     trace := [] |}.

(** The same with the store down. *)
Definition demo_state_down : State :=
  outside_change 0 (Some (OperationalError "connection refused")) demo_state.

(** The same after the delay of line 101 was notified: the table holds one
    unread row, of Ana. *)
Definition demo_state_notified : State :=
  exec (notify_users_about_line_delay linha_101 15 "accident") demo_state.

(** * Proofs *)

(** ** The trace *)

Lemma emit_all_nil s : emit_all [] s = s.
Proof. destruct s. unfold emit_all. simpl. by rewrite app_nil_r. Qed.

Lemma emit_all_app evs evs' s :
  emit_all evs' (emit_all evs s) = emit_all (evs ++ evs') s.
Proof. unfold emit_all. simpl. by rewrite app_assoc. Qed.

(** ** Fan-out *)

Lemma for_each_send_json conns message s :
  for_each conns (λ connection,
    try_except (send_json connection message)
      (λ e, print ("Erro ao enviar mensagem: " +:+ str e))) s
  = (Ok tt, emit_all (send_events (broken s) message conns) s).
Proof.
  revert s. induction conns as [|c conns IH]; intros s.
  - simpl. unfold ret. by rewrite emit_all_nil.
  - cbn [for_each]. unfold bind at 1, try_except at 1, send_json at 1.
    unfold send_events. rewrite fmap_cons. fold (send_events (broken s) message conns).
    destruct (broken s !! c) as [e|] eqn:Hc.
    + unfold print, modify. rewrite IH. unfold emit. rewrite emit_all_app. done.
    + rewrite IH. unfold emit. rewrite emit_all_app. done.
Qed.

Lemma broadcast_to_user_fan_out user_id message s :
  broadcast_to_user user_id message s
  = (Ok tt, emit_all (fan_out s user_id message) s).
Proof.
  unfold broadcast_to_user, fan_out.
  destruct (active_connections s !! user_id) as [conns|]; simpl.
  - apply for_each_send_json.
  - by rewrite emit_all_nil.
Qed.

Lemma elem_of_send_events_live brk message conns c :
  c ∈ conns → brk !! c = None → EvSend c message ∈ send_events brk message conns.
Proof.
  intros Hc Hlive. unfold send_events. apply list_elem_of_fmap.
  exists c. by rewrite Hlive.
Qed.

Lemma elem_of_send_events_inv brk message conns c message' :
  EvSend c message' ∈ send_events brk message conns →
  c ∈ conns ∧ brk !! c = None ∧ message' = message.
Proof.
  unfold send_events. intros (c' & Heq & Hin)%list_elem_of_fmap.
  destruct (brk !! c') eqn:Hc'; [done|]. by simplify_eq.
Qed.

(** ** The connection registry *)

Lemma list_remove_absent x l : x ∉ l → list_remove x l = None.
Proof.
  induction l as [|y l IH]; [done|].
  intros Hx. apply not_elem_of_cons in Hx as [Hne Hx]. simpl.
  rewrite decide_False by done. by rewrite IH.
Qed.

Lemma list_remove_present x l :
  x ∈ l → ∃ l', list_remove x l = Some l' ∧ length l = S (length l').
Proof.
  induction l as [|y l IH]; [by intros ?%elem_of_nil|].
  intros Hx. simpl. destruct (decide (y = x)) as [->|Hne]; [by eauto|].
  apply elem_of_cons in Hx as [->|Hx]; [done|].
  destruct (IH Hx) as (l' & -> & Hlen). exists (y :: l'). simpl. by rewrite Hlen.
Qed.

Lemma connect_no_empty_entries websocket user_id s :
  no_empty_entries (active_connections s) →
  no_empty_entries (active_connections (exec (connect websocket user_id) s)).
Proof.
  intros Hinv. unfold exec, connect, bind, accept.
  destruct (broken s !! websocket); [done|]. simpl.
  intros u. destruct (decide (u = user_id)) as [->|Hne].
  - rewrite lookup_alter_eq.
    destruct (active_connections s !! user_id) as [conns|] eqn:Hu.
    + rewrite Hu. simpl. intros [=Habs]. by destruct conns.
    + by rewrite lookup_insert_eq.
  - rewrite lookup_alter_ne by done.
    destruct (active_connections s !! user_id); [apply Hinv|].
    rewrite lookup_insert_ne by done. apply Hinv.
Qed.

Lemma disconnect_no_empty_entries user_id websocket s :
  no_empty_entries (active_connections s) →
  no_empty_entries (active_connections (exec (disconnect user_id websocket) s)).
Proof.
  intros Hinv. unfold exec, disconnect.
  destruct (active_connections s !! user_id) as [conns|]; [|done].
  destruct (list_remove websocket conns) as [[|c conns']|]; simpl; [| |done].
  - intros u. destruct (decide (u = user_id)) as [->|Hne].
    + by rewrite lookup_delete_eq.
    + rewrite lookup_delete_ne, lookup_insert_ne by done. apply Hinv.
  - intros u. destruct (decide (u = user_id)) as [->|Hne].
    + by rewrite lookup_insert_eq.
    + rewrite lookup_insert_ne by done. apply Hinv.
Qed.

Lemma registry_call_no_empty_entries c s :
  no_empty_entries (active_connections s) →
  no_empty_entries (active_connections (exec (registry_call c) s)).
Proof.
  destruct c as [websocket user_id|user_id websocket|user_id message]; simpl.
  - apply connect_no_empty_entries.
  - apply disconnect_no_empty_entries.
  - unfold exec. by rewrite broadcast_to_user_fan_out.
Qed.

Lemma run_registry_calls_no_empty_entries cs s :
  no_empty_entries (active_connections s) →
  no_empty_entries (active_connections (run_registry_calls cs s)).
Proof.
  revert s. induction cs as [|c cs IH]; intros s Hinv; [done|].
  simpl. apply IH. by apply registry_call_no_empty_entries.
Qed.

(** C2. From a registry without [u], after [connect(c1, u)], [connect(c2, u)]
    and [disconnect(u, c1)] (with [c1 ≠ c2], both accepted), a
    [broadcast_to_user(u, e)] sends [e] on [c2] and on nothing else, and [u]
    is still registered; after [disconnect(u, c2)] the registry has no entry
    for [u]. Moreover no sequence of registry calls, started from a registry
    without empty lists (such as the initial one), leaves an empty list
    behind. *)
Theorem registry_connect_disconnect_lifecycle (s : State) (u : Z) (c1 c2 : nat)
    (e : Message) :
  active_connections s !! u = None →
  c1 ≠ c2 →
  broken s !! c1 = None →
  broken s !! c2 = None →
  let s1 := exec (connect c1 u) s in
  let s2 := exec (connect c2 u) s1 in
  let s3 := exec (disconnect u c1) s2 in
  let s4 := exec (broadcast_to_user u e) s3 in
  let s5 := exec (disconnect u c2) s4 in
  (outcome (connect c1 u) s = Ok tt ∧
   outcome (connect c2 u) s1 = Ok tt ∧
   outcome (disconnect u c1) s2 = Ok tt ∧
   outcome (broadcast_to_user u e) s3 = Ok tt ∧
   outcome (disconnect u c2) s4 = Ok tt) ∧
  trace s4 = trace s ++ [EvSend c2 e] ∧
  active_connections s4 !! u = Some [c2] ∧
  active_connections s5 !! u = None ∧
  (∀ cs s0, no_empty_entries (active_connections s0) →
            no_empty_entries (active_connections (run_registry_calls cs s0))) ∧
  no_empty_entries (active_connections initial_state).
Proof.
  intros Hu Hne Hc1 Hc2 s1 s2 s3 s4 s5.
  set (ac := active_connections s).
  assert (E1 : connect c1 u s
               = (Ok tt, with_connections (λ _, <[u := [c1]]> ac) s)).
  { unfold connect, bind, accept, modify. rewrite Hc1.
    unfold with_connections. simpl. rewrite Hu. do 2 f_equal.
    by rewrite alter_insert_eq. }
  assert (Hs1 : s1 = with_connections (λ _, <[u := [c1]]> ac) s)
    by (unfold s1, exec; by rewrite E1).
  assert (E2 : connect c2 u s1
               = (Ok tt, with_connections (λ _, <[u := [c1; c2]]> ac) s)).
  { rewrite Hs1. unfold connect, bind, accept, modify. simpl. rewrite Hc2.
    unfold with_connections. simpl. rewrite lookup_insert_eq. do 2 f_equal.
    by rewrite alter_insert_eq. }
  assert (Hs2 : s2 = with_connections (λ _, <[u := [c1; c2]]> ac) s)
    by (unfold s2, exec; by rewrite E2).
  assert (E3 : disconnect u c1 s2
               = (Ok tt, with_connections (λ _, <[u := [c2]]> ac) s)).
  { rewrite Hs2. unfold disconnect. simpl. rewrite lookup_insert_eq. simpl.
    rewrite decide_True by done. unfold with_connections. simpl. do 2 f_equal.
    by rewrite insert_insert_eq. }
  assert (Hs3 : s3 = with_connections (λ _, <[u := [c2]]> ac) s)
    by (unfold s3, exec; by rewrite E3).
  assert (E4 : broadcast_to_user u e s3 = (Ok tt, emit_all [EvSend c2 e] s3)).
  { rewrite broadcast_to_user_fan_out. unfold fan_out. rewrite Hs3. simpl.
    rewrite lookup_insert_eq. simpl. by rewrite Hc2. }
  assert (Hs4 : s4 = emit_all [EvSend c2 e] s3)
    by (unfold s4, exec; by rewrite E4).
  assert (E5 : disconnect u c2 s4
               = (Ok tt, with_connections (λ _, delete u ac) s4)).
  { rewrite Hs4, Hs3. unfold disconnect. simpl. rewrite lookup_insert_eq. simpl.
    rewrite decide_True by done. unfold with_connections. simpl. do 2 f_equal.
    by rewrite insert_insert_eq, delete_insert_eq. }
  assert (Hs5 : s5 = with_connections (λ _, delete u ac) s4)
    by (unfold s5, exec; by rewrite E5).
  unfold outcome. rewrite E1, E2, E3, E4, E5. clearbody s1 s2 s3 s4 s5.
  split_and!; try done.
  - by rewrite Hs4, Hs3.
  - rewrite Hs4, Hs3. simpl. by rewrite lookup_insert_eq.
  - rewrite Hs5. simpl. by rewrite lookup_delete_eq.
  - apply run_registry_calls_no_empty_entries.
Qed.

Lemma registry_connect_disconnect_lifecycle_witness :
  active_connections initial_state !! 7 = None ∧
  10%nat ≠ 11%nat ∧
  broken initial_state !! 10%nat = None ∧
  broken initial_state !! 11%nat = None ∧
  trace (exec (broadcast_to_user 7 [("type", JStr "low_balance")])
          (exec (disconnect 7 10%nat)
             (exec (connect 11%nat 7)
                (exec (connect 10%nat 7) initial_state))))
  = [EvSend 11%nat [("type", JStr "low_balance")]].
Proof.
  assert (Hne : 10%nat ≠ 11%nat) by lia.
  destruct (registry_connect_disconnect_lifecycle initial_state 7 10%nat 11%nat
              [("type", JStr "low_balance")] eq_refl Hne eq_refl eq_refl)
    as (_ & Htrace & _).
  split_and!; [reflexivity | exact Hne | reflexivity | reflexivity |].
  exact Htrace.
Defined.

Lemma disconnect_unknown_user user_id websocket s :
  active_connections s !! user_id = None →
  disconnect user_id websocket s = (Ok tt, s).
Proof. intros Hu. unfold disconnect. by rewrite Hu. Qed.

Lemma disconnect_absent_channel user_id websocket conns s :
  active_connections s !! user_id = Some conns →
  websocket ∉ conns →
  disconnect user_id websocket s
  = (Raise (ValueError "list.remove(x): x not in list"), s).
Proof.
  intros Hu Hc. unfold disconnect. by rewrite Hu, list_remove_absent.
Qed.

(** C3. [disconnect] is not a no-op on a connection that is not registered
    under a registered user: with user 1 connected on 10 and 11,
    [disconnect(1, 12)] raises [ValueError] (and leaves the state as it
    is). *)
Theorem disconnect_absent_channel_raises :
  disconnect 1 12%nat demo_state
  = (Raise (ValueError "list.remove(x): x not in list"), demo_state).
Proof.
  apply (disconnect_absent_channel 1 12%nat [10%nat; 11%nat]); [done|].
  intros Hin. repeat (apply elem_of_cons in Hin as [Hin|Hin]; [lia|]).
  by apply elem_of_nil in Hin.
Qed.

(** C5. When the send on one connection of a user raises, [broadcast_to_user]
    still sends the message on every connection of the user that does not
    fail, sends nothing on the failing one, leaves the registry as it is and
    returns normally. *)
Theorem broadcast_failure_isolated (s : State) (user_id : Z) (message : Message)
    (conns : list nat) (failing : nat) (e : Exception) :
  active_connections s !! user_id = Some conns →
  failing ∈ conns →
  broken s !! failing = Some e →
  let s' := exec (broadcast_to_user user_id message) s in
  outcome (broadcast_to_user user_id message) s = Ok tt ∧
  active_connections s' = active_connections s ∧
  ∃ evs, trace s' = trace s ++ evs ∧
         (∀ c, c ∈ conns → broken s !! c = None → EvSend c message ∈ evs) ∧
         (EvSend failing message ∉ evs) ∧
         EvPrint ("Erro ao enviar mensagem: " +:+ str e) ∈ evs.
Proof.
  intros Hu Hin Hfail s'. subst s'. unfold exec, outcome.
  rewrite broadcast_to_user_fan_out. cbn [fst snd].
  split_and!; [done..|]. exists (fan_out s user_id message).
  unfold fan_out. rewrite Hu. cbn [default]. split_and!; [done| | |].
  - intros c Hc Hlive. by apply elem_of_send_events_live.
  - intros (_ & Hlive & _)%elem_of_send_events_inv. congruence.
  - unfold send_events. apply list_elem_of_fmap. exists failing.
    by rewrite Hfail.
Qed.

Lemma broadcast_failure_isolated_witness :
  active_connections demo_state !! 1 = Some [10%nat; 11%nat] ∧
  10%nat ∈ [10%nat; 11%nat] ∧
  broken demo_state !! 10%nat = Some (RuntimeError "connection closed") ∧
  outcome (broadcast_to_user 1 (low_balance_event (7 # 2))) demo_state = Ok tt.
Proof.
  assert (Hin : 10%nat ∈ [10%nat; 11%nat]) by apply list_elem_of_here.
  split_and!; [reflexivity | exact Hin | reflexivity |].
  apply (broadcast_failure_isolated demo_state 1 (low_balance_event (7 # 2))
           [10%nat; 11%nat] 10%nat (RuntimeError "connection closed")
           eq_refl Hin eq_refl).
Defined.

(** C10. For a user with no entry in the registry, [broadcast_to_user]
    returns normally and leaves the whole state, trace and registry
    included, as it is: nothing is sent. *)
Theorem broadcast_unknown_user_noop (s : State) (user_id : Z) (message : Message) :
  active_connections s !! user_id = None →
  broadcast_to_user user_id message s = (Ok tt, s).
Proof. intros Hu. unfold broadcast_to_user. by rewrite Hu. Qed.

Lemma broadcast_unknown_user_noop_witness :
  active_connections demo_state !! 2 = None ∧
  broadcast_to_user 2 (low_balance_event 5) demo_state = (Ok tt, demo_state).
Proof.
  split; [reflexivity|].
  apply (broadcast_unknown_user_noop demo_state 2 (low_balance_event 5) eq_refl).
Defined.

(** ** The session *)

Lemma round_trip_ok s : fault (db s) = None → round_trip s = (Ok tt, s).
Proof. intros Hf. unfold round_trip. by rewrite Hf. Qed.

Lemma round_trip_fault s e : fault (db s) = Some e → round_trip s = (Raise e, s).
Proof. intros Hf. unfold round_trip. by rewrite Hf. Qed.

Lemma query_ok {A} (table : Session → list A) (P : A → Prop)
    `{∀ x, Decision (P x)} s :
  fault (db s) = None → query table P s = (Ok (filter P (table (db s))), s).
Proof. intros Hf. unfold query, bind. by rewrite round_trip_ok. Qed.

Lemma query_fault {A} (table : Session → list A) (P : A → Prop)
    `{∀ x, Decision (P x)} s e :
  fault (db s) = Some e → query table P s = (Raise e, s).
Proof. intros Hf. unfold query, bind. by rewrite (round_trip_fault s e). Qed.

Lemma db_commit_ok s :
  fault (db s) = None → db_commit s = (Ok tt, with_db commit s).
Proof. intros Hf. unfold db_commit, bind. by rewrite round_trip_ok. Qed.

Lemma filter_none {A} (P : A → Prop) `{∀ x, Decision (P x)} (l : list A) :
  (∀ x, x ∈ l → ¬ P x) → filter P l = [].
Proof.
  induction l as [|x l IH]; intros Hl; [done|].
  rewrite filter_cons_False by (apply Hl; left).
  apply IH. intros y Hy. apply Hl. by right.
Qed.

Lemma head_filter_Some {A} (P : A → Prop) `{∀ x, Decision (P x)} (l : list A) x :
  head (filter P l) = Some x → P x ∧ x ∈ l.
Proof.
  intros Hx. rewrite <- list_elem_of_filter. apply head_Some in Hx as [l' ->]. left.
Qed.

(** ** Marking notifications read *)


Lemma mark_notification_read_fault notification_id current_user s e :
  fault (db s) = Some e →
  mark_notification_read notification_id current_user s
  = (Raise (HTTPException 500 (str e)), s).
Proof.
  intros Hf. unfold mark_notification_read, try_except, bind.
  by rewrite (query_fault _ _ s e).
Qed.

Lemma mark_notification_read_not_found notification_id current_user s :
  fault (db s) = None →
  (∀ n, n ∈ rows (db s) →
        ¬ (NotificationLog.id n = notification_id ∧
           NotificationLog.user_id n = User.id current_user)) →
  mark_notification_read notification_id current_user s
  = (Raise (HTTPException 500
              (str (HTTPException 404 "Notificação não encontrada"))), s).
Proof.
  intros Hf Hnone. unfold mark_notification_read, try_except, bind.
  rewrite query_ok by done. by rewrite filter_none.
Qed.

Lemma mark_notification_read_found notification_id current_user s n :
  fault (db s) = None →
  head (filter (λ n, NotificationLog.id n = notification_id ∧
                     NotificationLog.user_id n = User.id current_user)
          (rows (db s))) = Some n →
  mark_notification_read notification_id current_user s
  = (Ok success,
     with_db commit
       (with_db (with_rows
          (update_first
             (λ n, NotificationLog.id n = notification_id ∧
                   NotificationLog.user_id n = User.id current_user)
             (NotificationLog.set_read true))) s)).
Proof.
  intros Hf Hn. unfold mark_notification_read, try_except, bind.
  rewrite query_ok by done. rewrite Hn. unfold modify.
  by rewrite db_commit_ok.
Qed.

Lemma mark_all_notifications_read_fault current_user s e :
  fault (db s) = Some e →
  mark_all_notifications_read current_user s
  = (Raise (HTTPException 500 (str e)), s).
Proof.
  intros Hf. unfold mark_all_notifications_read, try_except, bind.
  by rewrite (round_trip_fault s e).
Qed.

Lemma mark_all_notifications_read_ok current_user s :
  fault (db s) = None →
  mark_all_notifications_read current_user s
  = (Ok success,
     with_db commit
       (with_db (with_rows
          (update_all
             (λ n, NotificationLog.user_id n = User.id current_user ∧
                   NotificationLog.read n = false)
             (NotificationLog.set_read true))) s)).
Proof.
  intros Hf. unfold mark_all_notifications_read, try_except, bind.
  rewrite round_trip_ok by done. unfold modify. by rewrite db_commit_ok.
Qed.

Lemma get_notifications_state current_user s :
  exec (get_notifications current_user) s = s.
Proof.
  unfold exec, get_notifications, try_except, bind, get, query, bind, round_trip.
  by destruct (fault (db s)).
Qed.

(** C4. Marking a notification that does not exist does not end in a
    not-found error: the [HTTPException] with status 404 is raised inside the
    [try] block, caught by [except Exception] and turned into one with status
    500. Here the table is empty and user 1 marks notification 1. *)
Theorem mark_missing_notification_gives_500 :
  mark_notification_read 1 ana demo_state
  = (Raise (HTTPException 500
              (str (HTTPException 404 "Notificação não encontrada"))),
     demo_state).
Proof.
  apply mark_notification_read_not_found; [done|].
  by intros n Hn%elem_of_nil.
Qed.

Lemma update_all_idempotent u l :
  let P := λ n, NotificationLog.user_id n = u ∧ NotificationLog.read n = false in
  update_all P (NotificationLog.set_read true)
    (update_all P (NotificationLog.set_read true) l)
  = update_all P (NotificationLog.set_read true) l.
Proof.
  intros P. unfold update_all. rewrite <- list_fmap_compose.
  apply list_fmap_ext. intros _ n _. simpl.
  destruct (decide (P n)) as [HP|HP].
  - rewrite decide_False; [done|]. unfold P. simpl. intros [_ ?]. done.
  - by rewrite decide_False.
Qed.

Lemma set_read_true_id n :
  NotificationLog.read n = true → NotificationLog.set_read true n = n.
Proof. destruct n. simpl. by intros ->. Qed.

(** C7. [mark_all_notifications_read] is idempotent: a second call leaves the
    state the first call produced. When the store answers, the call succeeds
    (whether or not the user has unread rows), keeps every row at its place,
    turns the rows of the user to read, leaves the rows of the other users
    as they are, and commits: the table as committed is the table the
    session sees. *)
Theorem mark_all_notifications_read_idempotent (s : State) (u : User.t) :
  let s1 := exec (mark_all_notifications_read u) s in
  exec (mark_all_notifications_read u) s1 = s1 ∧
  (fault (db s) = None →
   outcome (mark_all_notifications_read u) s = Ok success ∧
   length (rows (db s1)) = length (rows (db s)) ∧
   (∀ i n, rows (db s) !! i = Some n →
           rows (db s1) !! i
           = Some (if decide (NotificationLog.user_id n = User.id u)
                   then NotificationLog.set_read true n else n)) ∧
   durable (db s1) = rows (db s1)).
Proof.
  intros s1. subst s1. unfold exec, outcome.
  destruct (fault (db s)) as [e|] eqn:Hf.
  - rewrite (mark_all_notifications_read_fault u s e Hf). cbn [fst snd].
    by rewrite (mark_all_notifications_read_fault u s e Hf).
  - rewrite (mark_all_notifications_read_ok u s Hf). cbn [fst snd].
    rewrite mark_all_notifications_read_ok by done. cbn [fst snd]. split.
    + unfold with_db, commit, with_rows. simpl.
      by rewrite update_all_idempotent.
    + intros _. split_and!; [done| | |done].
      * simpl. unfold update_all. by rewrite length_fmap.
      * intros i n Hi. simpl. unfold update_all.
        rewrite list_lookup_fmap, Hi. simpl. f_equal.
        destruct (decide (NotificationLog.user_id n = User.id u)) as [Hu|Hu].
        -- destruct (NotificationLog.read n) eqn:Hr.
           ++ rewrite decide_False by (intros [_ ?]; done).
              by rewrite set_read_true_id.
           ++ by rewrite decide_True.
        -- by rewrite decide_False by (intros [? _]; done).
Qed.

Lemma mark_all_notifications_read_idempotent_witness :
  fault (db demo_state_notified) = None ∧
  NotificationLog.read <$>
    durable (db (exec (mark_all_notifications_read ana) demo_state_notified))
  = [true].
Proof.
  split; [reflexivity|].
  destruct (mark_all_notifications_read_idempotent
              demo_state_notified ana) as [_ H].
  destruct (H eq_refl) as (_ & _ & Hrows & Hdurable).
  specialize (Hrows 0%nat _ eq_refl).
  rewrite Hdurable.
  apply (f_equal (fmap NotificationLog.read)) in Hrows.
  vm_compute in Hrows. vm_compute. congruence.
Defined.

(** ** Rows are kept and only ever turn read *)

Lemma kept_refl n : kept n n.
Proof. by left. Qed.

Lemma kept_set_read n : kept n (NotificationLog.set_read true n).
Proof.
  destruct (NotificationLog.read n) eqn:Hr.
  - left. by apply set_read_true_id.
  - by right.
Qed.

Lemma kept_trans n1 n2 n3 : kept n1 n2 → kept n2 n3 → kept n1 n3.
Proof.
  intros [->|[Hr ->]] [->|[Hr' ->]]; try (by left); by right.
Qed.

Lemma kept_read n n' :
  kept n n' → NotificationLog.read n = true → NotificationLog.read n' = true.
Proof. by intros [->|[_ ->]]. Qed.

Lemma rows_kept_refl l : rows_kept l l.
Proof. intros i n Hi. exists n. split; [done|apply kept_refl]. Qed.

Lemma rows_kept_trans l1 l2 l3 :
  rows_kept l1 l2 → rows_kept l2 l3 → rows_kept l1 l3.
Proof.
  intros H12 H23 i n1 Hi. destruct (H12 i n1 Hi) as (n2 & Hi2 & Hk12).
  destruct (H23 i n2 Hi2) as (n3 & Hi3 & Hk23).
  exists n3. split; [done|]. by eapply kept_trans.
Qed.

Lemma rows_kept_app l new : rows_kept l (l ++ new).
Proof.
  intros i n Hi. exists n. split; [|apply kept_refl].
  by apply lookup_app_l_Some.
Qed.

Lemma rows_kept_update_all P `{∀ x, Decision (P x)} l :
  rows_kept l (update_all P (NotificationLog.set_read true) l).
Proof.
  intros i n Hi. unfold update_all. rewrite list_lookup_fmap, Hi. simpl.
  eexists. split; [done|]. case_decide; [apply kept_set_read|apply kept_refl].
Qed.

Lemma rows_kept_update_first P `{∀ x, Decision (P x)} l :
  rows_kept l (update_first P (NotificationLog.set_read true) l).
Proof.
  induction l as [|n0 l IH]; [apply rows_kept_refl|].
  simpl. case_decide.
  - intros [|i] n Hi; simpl in *.
    + simplify_eq. eexists. split; [done|apply kept_set_read].
    + exists n. split; [done|apply kept_refl].
  - intros [|i] n Hi; simpl in *.
    + simplify_eq. eexists. split; [done|apply kept_refl].
    + by apply IH.
Qed.

(** ** Notifying the followers of a line *)

Lemma insert_rows_nil now ty ti me s :
  with_db (insert_rows now ty ti me []) s = s.
Proof.
  destruct s as [[] ? ? ? ?]. unfold with_db, insert_rows. simpl.
  by rewrite app_nil_r, Z.add_0_r.
Qed.

Lemma insert_rows_cons now ty ti me u us s :
  with_db (insert_rows now ty ti me us) (with_db (insert_row now u ty ti me false) s)
  = with_db (insert_rows now ty ti me (u :: us)) s.
Proof.
  unfold with_db, insert_rows, insert_row. simpl.
  rewrite <- app_assoc. simpl. do 2 f_equal. lia.
Qed.

Lemma db_add_broadcast_loop ty ti me message (subs : list UserLine.t) s :
  for_each subs (λ user_line,
    db_add (UserLine.user_id user_line) ty ti me false ;;
    broadcast_to_user (UserLine.user_id user_line) message) s
  = (Ok tt,
     emit_all ((UserLine.user_id <$> subs) ≫= λ u, fan_out s u message)
       (with_db (insert_rows (clock s) ty ti me (UserLine.user_id <$> subs)) s)).
Proof.
  revert s. induction subs as [|ul subs IH]; intros s.
  - simpl. unfold ret. by rewrite emit_all_nil, insert_rows_nil.
  - cbn [for_each]. unfold bind at 1. unfold bind at 1, db_add at 1, modify.
    rewrite broadcast_to_user_fan_out, IH. f_equal.
    rewrite fmap_cons. cbn [mbind list_bind]. rewrite <- emit_all_app.
    rewrite <- insert_rows_cons. done.
Qed.

Lemma bind_ok {A B} (m : M A) (k : A → M B) s a s' :
  m s = (Ok a, s') → bind m k s = k a s'.
Proof. intros Hm. unfold bind. by rewrite Hm. Qed.

Lemma bind_raise {A B} (m : M A) (k : A → M B) s e s' :
  m s = (Raise e, s') → bind m k s = (Raise e, s').
Proof. intros Hm. unfold bind. by rewrite Hm. Qed.

Lemma notify_users_about_line_delay_ok line delay_minutes reason s :
  fault (db s) = None →
  notify_users_about_line_delay line delay_minutes reason s
  = (Ok tt,
     with_db commit
       (emit_all
          (subscribers line (db s) ≫=
             λ u, fan_out s u (line_delay_event line delay_minutes reason))
          (with_db
             (insert_rows (clock s) "line_delay" (line_delay_title line)
                (line_delay_message delay_minutes reason)
                (subscribers line (db s))) s))).
Proof.
  intros Hf. unfold notify_users_about_line_delay, try_except.
  rewrite (bind_ok _ _ _ _ _ (query_ok _ _ s Hf)).
  rewrite (bind_ok _ _ _ _ _ (db_add_broadcast_loop _ _ _ _ _ _)).
  by rewrite db_commit_ok.
Qed.

Lemma notify_users_about_line_delay_fault line delay_minutes reason s e :
  fault (db s) = Some e →
  notify_users_about_line_delay line delay_minutes reason s
  = (Ok tt,
     with_db rollback
       (emit (EvPrint ("Erro ao notificar usuários: " +:+ str e)) s)).
Proof.
  intros Hf. unfold notify_users_about_line_delay, try_except, bind.
  by rewrite (query_fault _ _ s e).
Qed.

Lemma elem_of_new_rows now next ty ti me us u :
  u ∈ us →
  ∃ n, n ∈ new_rows now next ty ti me us ∧
       NotificationLog.user_id n = u ∧
       NotificationLog.notification_type n = ty ∧
       NotificationLog.title n = ti ∧
       NotificationLog.message n = me ∧
       NotificationLog.read n = false ∧
       NotificationLog.created_at n = now.
Proof.
  revert next. induction us as [|u0 us IH]; intros next Hu.
  - by apply elem_of_nil in Hu.
  - apply elem_of_cons in Hu as [->|Hu].
    + eexists. split; [left|]. done.
    + destruct (IH (next + 1) Hu) as (n & Hn & Hrest).
      exists n. split; [by right|done].
Qed.

Lemma length_new_rows now next ty ti me us :
  length (new_rows now next ty ti me us) = length us.
Proof. revert next. induction us; intros; simpl; [done|]. by rewrite IHus. Qed.

Lemma for_each_ret {A} (l : list A) s : for_each l (λ _, ret tt) s = (Ok tt, s).
Proof. induction l as [|x l IH]; [done|]. cbn [for_each]. unfold bind, ret at 1. apply IH. Qed.

Lemma monitor_line_delays_iteration_cases s :
  monitor_line_delays_iteration s
  = (Ok tt,
     match fault (db s) with
     | None => emit (EvSleep 60) (with_clock (Z.add 60) s)
     | Some e =>
         emit (EvSleep 60)
           (with_clock (Z.add 60)
              (emit (EvPrint ("Erro ao monitorar atrasos: " +:+ str e)) s))
     end).
Proof.
  unfold monitor_line_delays_iteration, monitor_line_delays_body, try_except, bind.
  destruct (fault (db s)) as [e|] eqn:Hf.
  - by rewrite (query_fault _ _ s e).
  - rewrite query_ok by done. by rewrite for_each_ret.
Qed.

(** C1 (as the code has it). Called for a line with a delay and a reason
    while the store answers, [notify_users_about_line_delay] returns normally
    and appends one row per subscription to the line; every subscriber gets
    an unread [line_delay] row titled "Atraso na <line name>" with the
    message "Motivo: <reason>. Tempo estimado de atraso: <minutes> minutos.",
    and the event [{type: line_delay, line_id, line_name, delay_minutes,
    reason}] is sent on each of the subscriber's connections that does not
    fail. A round of [monitor_line_delays] itself writes no row, changed
    delay or not. *)
Theorem notify_users_about_line_delay_rows_and_events (s : State)
    (line : TransitLine.t) (delay_minutes : Z) (reason : string) :
  fault (db s) = None →
  let s' := exec (notify_users_about_line_delay line delay_minutes reason) s in
  outcome (notify_users_about_line_delay line delay_minutes reason) s = Ok tt ∧
  (∃ new,
     rows (db s') = rows (db s) ++ new ∧
     length new = length (subscribers line (db s)) ∧
     ∀ ul, ul ∈ user_lines (db s) →
           UserLine.line_id ul = TransitLine.id line →
           ∃ n, n ∈ new ∧
                NotificationLog.user_id n = UserLine.user_id ul ∧
                NotificationLog.notification_type n = "line_delay" ∧
                NotificationLog.title n
                = "Atraso na " +:+ TransitLine.name line ∧
                NotificationLog.message n
                = "Motivo: " +:+ reason +:+ ". Tempo estimado de atraso: "
                    +:+ pretty delay_minutes +:+ " minutos." ∧
                NotificationLog.read n = false) ∧
  (∃ evs,
     trace s' = trace s ++ evs ∧
     ∀ ul conns c,
       ul ∈ user_lines (db s) →
       UserLine.line_id ul = TransitLine.id line →
       active_connections s !! UserLine.user_id ul = Some conns →
       c ∈ conns →
       broken s !! c = None →
       EvSend c [("type", JStr "line_delay");
                 ("line_id", JInt (TransitLine.id line));
                 ("line_name", JStr (TransitLine.name line));
                 ("delay_minutes", JInt delay_minutes);
                 ("reason", JStr reason)] ∈ evs) ∧
  (∀ s0, rows (db (exec monitor_line_delays_iteration s0)) = rows (db s0)).
Proof.
  intros Hf s'. subst s'. unfold exec, outcome.
  rewrite notify_users_about_line_delay_ok by done. cbn [fst snd].
  assert (Hsub : ∀ ul, ul ∈ user_lines (db s) →
                       UserLine.line_id ul = TransitLine.id line →
                       UserLine.user_id ul ∈ subscribers line (db s)).
  { intros ul Hul Hline. unfold subscribers. apply list_elem_of_fmap.
    exists ul. split; [done|]. by apply list_elem_of_filter. }
  split_and!; [done| | |].
  - eexists. split; [done|]. split; [apply length_new_rows|].
    intros ul Hul Hline.
    destruct (elem_of_new_rows (clock s) (next_id (db s)) "line_delay"
                (line_delay_title line)
                (line_delay_message delay_minutes reason)
                _ _ (Hsub ul Hul Hline)) as (n & Hn & ? & ? & ? & ? & ? & _).
    exists n. done.
  - eexists. split; [done|]. intros ul conns c Hul Hline Hconns Hc Hlive.
    apply list_elem_of_bind. exists (UserLine.user_id ul).
    split; [|by apply Hsub]. unfold fan_out. rewrite Hconns. simpl.
    by apply elem_of_send_events_live.
  - intros s0. unfold exec. rewrite monitor_line_delays_iteration_cases.
    by destruct (fault (db s0)).
Qed.

Lemma notify_users_about_line_delay_rows_and_events_witness :
  fault (db demo_state) = None ∧
  outcome (notify_users_about_line_delay linha_101 15 "accident") demo_state
  = Ok tt.
Proof.
  split; [reflexivity|].
  apply (notify_users_about_line_delay_rows_and_events
           demo_state linha_101 15 "accident" eq_refl).
Defined.

(** C1 as stated fails: for line "Linha 101", delayed by 15 minutes by an
    accident, the one row written carries neither the English title nor the
    English message. *)
Lemma line_delay_row_is_not_english :
  ∃ n,
    rows (db (exec (notify_users_about_line_delay linha_101 15 "accident")
                demo_state)) = [n] ∧
    NotificationLog.title n ≠ "Delay on Linha 101" ∧
    NotificationLog.message n
    ≠ "Reason: accident. Estimated delay: 15 minutes.".
Proof. eexists. split; [vm_compute; reflexivity|]. by split_and!. Qed.

(** ** The low balance check *)

Lemma bind_get {A B} (f : State → A) (k : A → M B) s :
  bind (get f) k s = k (f s) s.
Proof. done. Qed.

(** The check of a user never gets past its first read of [user.balance]. *)
Lemma check_low_balance_raises user s :
  check_low_balance user s
  = (Raise (AttributeError "'User' object has no attribute 'balance'"), s).
Proof. done. Qed.

Lemma filter_all {A} (l : list A) : filter (λ _, True) l = l.
Proof.
  induction l as [|x l IH]; [done|].
  rewrite filter_cons_True by done. by rewrite IH.
Qed.

Lemma monitor_low_balance_iteration_fault s e :
  fault (db s) = Some e →
  monitor_low_balance_iteration s
  = (Ok tt,
     emit (EvSleep 30)
       (with_clock (Z.add 30)
          (emit (EvPrint ("Erro ao monitorar saldo: " +:+ str e)) s))).
Proof.
  intros Hf. unfold monitor_low_balance_iteration, monitor_low_balance_body,
    try_except.
  by rewrite (bind_raise _ _ _ _ _ (query_fault _ _ s e Hf)).
Qed.

Lemma monitor_low_balance_iteration_no_users s :
  fault (db s) = None →
  users (db s) = [] →
  monitor_low_balance_iteration s
  = (Ok tt, emit (EvSleep 30) (with_clock (Z.add 30) (with_db commit s))).
Proof.
  intros Hf Hnone. unfold monitor_low_balance_iteration,
    monitor_low_balance_body, try_except.
  rewrite (bind_ok _ _ _ _ _ (query_ok _ _ s Hf)).
  rewrite filter_all, Hnone. cbn [for_each].
  rewrite (bind_ok (ret tt) _ s tt s eq_refl).
  by rewrite (bind_ok _ _ _ _ _ (db_commit_ok s Hf)).
Qed.

Lemma monitor_low_balance_iteration_attribute_error s :
  fault (db s) = None →
  users (db s) ≠ [] →
  monitor_low_balance_iteration s
  = (Ok tt,
     emit (EvSleep 30)
       (with_clock (Z.add 30)
          (emit (EvPrint "Erro ao monitorar saldo: 'User' object has no attribute 'balance'")
             s))).
Proof.
  intros Hf Hsome. unfold monitor_low_balance_iteration,
    monitor_low_balance_body, try_except.
  rewrite (bind_ok _ _ _ _ _ (query_ok _ _ s Hf)). rewrite filter_all.
  destruct (users (db s)) as [|user us]; [done|]. cbn [for_each].
  rewrite (bind_raise _ _ _ _ _
             (bind_raise _ _ _ _ _ (check_low_balance_raises user s))).
  done.
Qed.

(** What one round of the balance monitor does, in every state: it returns
    normally, leaves the rows and the registry as they are, puts nothing on
    the wire and sleeps its 30 seconds. *)
Lemma monitor_low_balance_iteration_quiet s :
  ∃ s1 evs,
    monitor_low_balance_iteration s = (Ok tt, s1) ∧
    rows (db s1) = rows (db s) ∧
    active_connections s1 = active_connections s ∧
    clock s1 = clock s + 30 ∧
    trace s1 = trace s ++ evs ++ [EvSleep 30] ∧
    sends_of evs = [] ∧
    (session_clean (db s) → session_clean (db s1)).
Proof.
  destruct (fault (db s)) as [e|] eqn:Hf.
  - eexists _, [_]. split; [by apply monitor_low_balance_iteration_fault|].
    simpl. split_and!; first [done | lia | by rewrite <- app_assoc].
  - destruct (users (db s)) as [|user us] eqn:Hu.
    + eexists _, []. split; [by apply monitor_low_balance_iteration_no_users|].
      simpl. split_and!; first [done | lia].
    + eexists _, [_].
      split; [apply monitor_low_balance_iteration_attribute_error;
              [done|by rewrite Hu]|].
      simpl. split_and!; first [done | lia | by rewrite <- app_assoc].
Qed.

Lemma monitor_low_balance_iteration_keeps s :
  ∃ s1, monitor_low_balance_iteration s = (Ok tt, s1) ∧
        (∃ new, rows (db s1) = rows (db s) ++ new) ∧
        (∃ evs, trace s1 = trace s ++ evs ++ [EvSleep 30]) ∧
        active_connections s1 = active_connections s ∧
        (session_clean (db s) → session_clean (db s1)).
Proof.
  destruct (monitor_low_balance_iteration_quiet s)
    as (s1 & evs & E & Hrows & Hac & _ & Htrace & _ & Hclean).
  exists s1. split_and!; [done| |by exists evs|done..].
  exists []. by rewrite app_nil_r.
Qed.

(** C6. The balance monitor notifies nobody, however low the balance: the
    check reads [user.balance], which the [User] model does not have (its
    column is [card_balance]), and the [AttributeError] ends the round.
    Here Ana has a card balance of 3.50, no notification yet and a working
    connection, and the store is up: the round writes no row and sends
    nothing; it prints the error and sleeps. *)
Theorem low_balance_round_raises_attribute_error :
  monitor_low_balance_iteration demo_state
  = (Ok tt,
     emit (EvSleep 30)
       (with_clock (Z.add 30)
          (emit (EvPrint "Erro ao monitorar saldo: 'User' object has no attribute 'balance'")
             demo_state))).
Proof. by apply monitor_low_balance_iteration_attribute_error. Qed.

(** ** Sequences of store operations *)

Lemma notify_users_about_line_delay_keeps line delay_minutes reason s :
  session_clean (db s) →
  let s1 := exec (notify_users_about_line_delay line delay_minutes reason) s in
  session_clean (db s1) ∧ rows_kept (rows (db s)) (rows (db s1)).
Proof.
  intros Hclean s1. subst s1. unfold exec.
  destruct (fault (db s)) as [e|] eqn:Hf.
  - rewrite (notify_users_about_line_delay_fault _ _ _ s e Hf). simpl.
    unfold session_clean in *. simpl. rewrite <- Hclean.
    split; [done|apply rows_kept_refl].
  - rewrite notify_users_about_line_delay_ok by done. simpl.
    split; [done|apply rows_kept_app].
Qed.

Lemma mark_notification_read_keeps notification_id current_user s :
  session_clean (db s) →
  let s1 := exec (mark_notification_read notification_id current_user) s in
  session_clean (db s1) ∧ rows_kept (rows (db s)) (rows (db s1)).
Proof.
  intros Hclean s1. subst s1. unfold exec.
  destruct (fault (db s)) as [e|] eqn:Hf.
  - rewrite (mark_notification_read_fault _ _ s e Hf).
    split; [done|apply rows_kept_refl].
  - destruct (head (filter (λ n, NotificationLog.id n = notification_id ∧
                                 NotificationLog.user_id n = User.id current_user)
                      (rows (db s)))) as [n|] eqn:Hq.
    + rewrite (mark_notification_read_found _ _ s n Hf Hq). simpl.
      split; [done|apply rows_kept_update_first].
    + rewrite mark_notification_read_not_found; [|done|].
      * split; [done|apply rows_kept_refl].
      * apply head_None in Hq. intros n Hn HP.
        by eapply (filter_nil_not_elem_of _ _ n Hq).
Qed.

Lemma mark_all_notifications_read_keeps current_user s :
  session_clean (db s) →
  let s1 := exec (mark_all_notifications_read current_user) s in
  session_clean (db s1) ∧ rows_kept (rows (db s)) (rows (db s1)).
Proof.
  intros Hclean s1. subst s1. unfold exec.
  destruct (fault (db s)) as [e|] eqn:Hf.
  - rewrite (mark_all_notifications_read_fault _ s e Hf).
    split; [done|apply rows_kept_refl].
  - rewrite mark_all_notifications_read_ok by done. simpl.
    split; [done|apply rows_kept_update_all].
Qed.

Lemma store_call_keeps c s :
  session_clean (db s) →
  session_clean (db (store_call c s)) ∧
  rows_kept (rows (db s)) (rows (db (store_call c s))).
Proof.
  intros Hclean. destruct c; simpl.
  - by apply notify_users_about_line_delay_keeps.
  - destruct (monitor_low_balance_iteration_keeps s)
      as (s1 & E & [new Hnew] & _ & _ & Hc).
    unfold exec. rewrite E. simpl. split; [by apply Hc|].
    rewrite Hnew. apply rows_kept_app.
  - rewrite get_notifications_state. split; [done|apply rows_kept_refl].
  - by apply mark_notification_read_keeps.
  - by apply mark_all_notifications_read_keeps.
  - split; [done|apply rows_kept_refl].
Qed.

Lemma run_store_calls_keeps cs s :
  session_clean (db s) →
  session_clean (db (run_store_calls cs s)) ∧
  rows_kept (rows (db s)) (rows (db (run_store_calls cs s))).
Proof.
  revert s. induction cs as [|c cs IH]; intros s Hclean.
  - split; [done|apply rows_kept_refl].
  - destruct (store_call_keeps c s Hclean) as [Hclean1 Hkept1].
    destruct (IH _ Hclean1) as [Hclean2 Hkept2].
    split; [done|]. by eapply rows_kept_trans.
Qed.

(** C8. Over any sequence of store operations (notifications logged by the
    two monitors, listing, marking one or all read, with the store going down
    and coming back in between), started on a session without uncommitted
    changes, every row stays at its place with all its fields, except that
    its flag may turn from unread to read; a read row stays read and no row
    is deleted. *)
Theorem read_flag_only_turns_read (cs : list StoreCall) (s : State) :
  session_clean (db s) →
  ∀ i n,
    rows (db s) !! i = Some n →
    ∃ n',
      rows (db (run_store_calls cs s)) !! i = Some n' ∧
      (n' = n ∨
       (NotificationLog.read n = false ∧ n' = NotificationLog.set_read true n)) ∧
      (NotificationLog.read n = true → NotificationLog.read n' = true).
Proof.
  intros Hclean i n Hi.
  destruct (run_store_calls_keeps cs s Hclean) as [_ Hkept].
  destruct (Hkept i n Hi) as (n' & Hi' & Hk).
  exists n'. split_and!; [done..|]. by apply kept_read.
Qed.

Lemma read_flag_only_turns_read_witness :
  session_clean (db demo_state_notified) ∧
  ∃ n n',
    rows (db demo_state_notified) !! 0%nat = Some n ∧
    rows (db (run_store_calls
                [MarkAllNotificationsRead ana;
                 Outside 60 (Some (OperationalError "connection refused"));
                 NotifyUsersAboutLineDelay linha_101 15 "accident";
                 Outside 60 None;
                 MarkNotificationRead 1 rui;
                 MonitorLowBalanceRound]
                demo_state_notified)) !! 0%nat
    = Some n' ∧
    (NotificationLog.read n = true → NotificationLog.read n' = true).
Proof.
  assert (Hclean : session_clean (db demo_state_notified))
    by reflexivity.
  split; [exact Hclean|]. eexists.
  destruct (read_flag_only_turns_read
              [MarkAllNotificationsRead ana;
               Outside 60 (Some (OperationalError "connection refused"));
               NotifyUsersAboutLineDelay linha_101 15 "accident";
               Outside 60 None;
               MarkNotificationRead 1 rui;
               MonitorLowBalanceRound]
              demo_state_notified
              Hclean 0%nat _ eq_refl) as (n' & Hn' & _ & Hread).
  exists n'. split; [reflexivity|]. split; [exact Hn'|exact Hread].
Defined.

(** ** The monitor loops *)

Lemma try_except_raise {A} (body : M A) handler s e :
  outcome body s = Raise e →
  try_except body handler s = handler e (exec body s).
Proof.
  unfold outcome, exec, try_except. destruct (body s) as [[a|e'] s']; simpl; congruence.
Qed.

Lemma while_true_next outside iteration fuel round s s1 :
  iteration s = (Ok tt, s1) →
  while_true outside iteration (S fuel) round s
  = while_true outside iteration fuel (S round) (outside round s1).
Proof. intros E. cbn [while_true]. by rewrite (bind_ok _ _ _ _ _ E). Qed.

Lemma while_true_running outside iteration fuel round s :
  (∀ s, outcome iteration s = Ok tt) →
  outcome (while_true outside iteration fuel round) s = Ok tt.
Proof.
  intros Hit. revert round s. induction fuel as [|fuel IH]; intros round s; [done|].
  unfold outcome. rewrite (while_true_next _ _ _ _ s (exec iteration s)); [apply IH|].
  specialize (Hit s). unfold outcome, exec in *.
  destruct (iteration s) as [[[]|] ?]; simpl in *; congruence.
Qed.

Lemma monitor_line_delays_iteration_returns s :
  monitor_line_delays_iteration s = (Ok tt, exec monitor_line_delays_iteration s).
Proof. unfold exec. by rewrite monitor_line_delays_iteration_cases. Qed.

Lemma monitor_low_balance_iteration_returns s :
  monitor_low_balance_iteration s = (Ok tt, exec monitor_low_balance_iteration s).
Proof.
  destruct (monitor_low_balance_iteration_keeps s) as (s1 & E & _).
  unfold exec. by rewrite E.
Qed.

(** C9. A round of either monitor never lets an error out: when the [try]
    block raises, the error is printed, the monitor sleeps its interval (60
    and 30 seconds) and the round returns normally; every round, failed or
    not, ends with that sleep. Hence the loop goes on to the next round
    after every round, and however long it has run it is still running. *)
Theorem monitor_loops_survive_faults (outside : nat → State → State) :
  (∀ s e,
     outcome monitor_line_delays_body s = Raise e →
     outcome monitor_line_delays_iteration s = Ok tt ∧
     trace (exec monitor_line_delays_iteration s)
     = trace (exec monitor_line_delays_body s)
       ++ [EvPrint ("Erro ao monitorar atrasos: " +:+ str e); EvSleep 60]) ∧
  (∀ s e,
     outcome monitor_low_balance_body s = Raise e →
     outcome monitor_low_balance_iteration s = Ok tt ∧
     trace (exec monitor_low_balance_iteration s)
     = trace (exec monitor_low_balance_body s)
       ++ [EvPrint ("Erro ao monitorar saldo: " +:+ str e); EvSleep 30]) ∧
  (∀ s, outcome monitor_line_delays_iteration s = Ok tt ∧
        ∃ evs, trace (exec monitor_line_delays_iteration s)
               = trace s ++ evs ++ [EvSleep 60]) ∧
  (∀ s, outcome monitor_low_balance_iteration s = Ok tt ∧
        ∃ evs, trace (exec monitor_low_balance_iteration s)
               = trace s ++ evs ++ [EvSleep 30]) ∧
  (∀ fuel round s,
     outcome (monitor_line_delays outside fuel round) s = Ok tt ∧
     monitor_line_delays outside (S fuel) round s
     = monitor_line_delays outside fuel (S round)
         (outside round (exec monitor_line_delays_iteration s))) ∧
  (∀ fuel round s,
     outcome (monitor_low_balance outside fuel round) s = Ok tt ∧
     monitor_low_balance outside (S fuel) round s
     = monitor_low_balance outside fuel (S round)
         (outside round (exec monitor_low_balance_iteration s))).
Proof.
  assert (Hd : ∀ s, outcome monitor_line_delays_iteration s = Ok tt)
    by (intros s; unfold outcome; by rewrite monitor_line_delays_iteration_returns).
  assert (Hb : ∀ s, outcome monitor_low_balance_iteration s = Ok tt)
    by (intros s; unfold outcome; by rewrite monitor_low_balance_iteration_returns).
  split_and!.
  - intros s e He. split; [done|].
    unfold exec at 1, monitor_line_delays_iteration.
    rewrite (try_except_raise _ _ s e He). simpl. by rewrite <- app_assoc.
  - intros s e He. split; [done|].
    unfold exec at 1, monitor_low_balance_iteration.
    rewrite (try_except_raise _ _ s e He). simpl. by rewrite <- app_assoc.
  - intros s. split; [done|]. unfold exec.
    rewrite monitor_line_delays_iteration_cases.
    destruct (fault (db s)) as [e|]; simpl.
    + eexists [_]. by rewrite <- app_assoc.
    + by exists [].
  - intros s. split; [done|].
    destruct (monitor_low_balance_iteration_keeps s) as (s1 & E & _ & Hevs & _).
    unfold exec. by rewrite E.
  - intros fuel round s. split; [by apply while_true_running|].
    apply while_true_next, monitor_line_delays_iteration_returns.
  - intros fuel round s. split; [by apply while_true_running|].
    apply while_true_next, monitor_low_balance_iteration_returns.
Qed.

Lemma monitor_loops_survive_faults_witness :
  outcome monitor_low_balance_body demo_state_down
  = Raise (OperationalError "connection refused") ∧
  trace (exec monitor_low_balance_iteration demo_state_down)
  = [EvPrint "Erro ao monitorar saldo: connection refused"; EvSleep 30].
Proof.
  split; [reflexivity|].
  destruct (monitor_loops_survive_faults (λ _ s, s)) as (_ & Hbalance & _).
  destruct (Hbalance demo_state_down (OperationalError "connection refused")
              eq_refl) as [_ Htrace].
  exact Htrace.
Defined.

(** * Further properties *)

(** ** The registry *)

Lemma list_remove_app_fresh x l : x ∉ l → list_remove x (l ++ [x]) = Some l.
Proof.
  induction l as [|y l IH]; intros Hx; simpl.
  - by rewrite decide_True.
  - apply not_elem_of_cons in Hx as [Hne Hx].
    rewrite decide_False by done. by rewrite IH.
Qed.

Lemma with_connections_id f s :
  f (active_connections s) = active_connections s → with_connections f s = s.
Proof. intros Hf. destruct s. unfold with_connections. simpl in *. by rewrite Hf. Qed.

Lemma with_connections_twice f g s :
  with_connections g (with_connections f s) = with_connections (g ∘ f) s.
Proof. done. Qed.

Lemma connect_accepted websocket user_id s :
  broken s !! websocket = None →
  connect websocket user_id s
  = (Ok tt,
     with_connections
       (λ ac, <[user_id := default [] (ac !! user_id) ++ [websocket]]> ac) s).
Proof.
  intros Hlive. unfold connect, bind, accept, modify. rewrite Hlive.
  unfold with_connections. simpl. do 2 f_equal.
  destruct (active_connections s !! user_id) as [conns|] eqn:Hu; simpl.
  - apply map_eq. intros v. destruct (decide (v = user_id)) as [->|Hne].
    + by rewrite lookup_alter_eq, lookup_insert_eq, Hu.
    + by rewrite lookup_alter_ne, lookup_insert_ne.
  - by rewrite alter_insert_eq.
Qed.

Lemma connect_refused websocket user_id s e :
  broken s !! websocket = Some e →
  connect websocket user_id s = (Raise e, s).
Proof. intros Hb. unfold connect, bind, accept. by rewrite Hb. Qed.

(** X1. Registering a connection that the user does not have yet and then
    unregistering it gives back the state one started from, entry of the
    user included (none if the user had none). *)
Theorem connect_disconnect_round_trip (s : State) (websocket : nat) (user_id : Z) :
  broken s !! websocket = None →
  no_empty_entries (active_connections s) →
  (∀ conns, active_connections s !! user_id = Some conns → websocket ∉ conns) →
  outcome (connect websocket user_id) s = Ok tt ∧
  disconnect user_id websocket (exec (connect websocket user_id) s) = (Ok tt, s).
Proof.
  intros Hlive Hinv Hfresh. unfold outcome, exec.
  rewrite connect_accepted by done. cbn [fst snd]. split; [done|].
  unfold disconnect. simpl. rewrite lookup_insert_eq.
  destruct (active_connections s !! user_id) as [conns|] eqn:Hu; simpl.
  - rewrite list_remove_app_fresh by auto.
    destruct conns as [|c conns]; [by destruct (Hinv user_id)|].
    f_equal. rewrite with_connections_twice. apply with_connections_id.
    simpl. rewrite Hu. simpl. by rewrite insert_insert_eq, insert_id.
  - rewrite decide_True by done. f_equal.
    rewrite with_connections_twice. apply with_connections_id.
    simpl. rewrite Hu. simpl.
    by rewrite insert_insert_eq, delete_insert_eq, delete_id.
Qed.

Lemma connect_disconnect_round_trip_witness :
  broken demo_state !! 12%nat = None ∧
  disconnect 1 12%nat (exec (connect 12%nat 1) demo_state) = (Ok tt, demo_state).
Proof.
  split; [reflexivity|].
  apply (connect_disconnect_round_trip demo_state 12%nat 1 eq_refl).
  - intros u. unfold demo_state. simpl.
    destruct (decide (u = 1)) as [->|Hne].
    + by rewrite lookup_singleton_eq.
    + by rewrite lookup_singleton_ne.
  - intros conns Hconns. vm_compute in Hconns. injection Hconns as <-.
    intros Hin. repeat (apply elem_of_cons in Hin as [Hin|Hin]; [lia|]).
    by apply elem_of_nil in Hin.
Defined.

(** X2. The registry does not check for duplicates: a connection registered
    twice for a user gets every message twice, and one [disconnect] takes
    away one of the two registrations only. *)
Theorem double_registration_doubles_delivery (s : State) (websocket : nat)
    (user_id : Z) (message : Message) :
  active_connections s !! user_id = None →
  broken s !! websocket = None →
  let s2 := exec (connect websocket user_id) (exec (connect websocket user_id) s) in
  let s3 := exec (disconnect user_id websocket) s2 in
  active_connections s2 !! user_id = Some [websocket; websocket] ∧
  trace (exec (broadcast_to_user user_id message) s2)
  = trace s ++ [EvSend websocket message; EvSend websocket message] ∧
  outcome (disconnect user_id websocket) s2 = Ok tt ∧
  active_connections s3 !! user_id = Some [websocket] ∧
  trace (exec (broadcast_to_user user_id message) s3)
  = trace s ++ [EvSend websocket message].
Proof.
  intros Hu Hlive s2 s3. subst s3 s2. unfold exec, outcome.
  rewrite (connect_accepted websocket user_id s Hlive). cbn [fst snd].
  rewrite connect_accepted by exact Hlive. cbn [fst snd].
  rewrite !broadcast_to_user_fan_out. cbn [fst snd].
  unfold disconnect, fan_out. simpl. rewrite !lookup_insert_eq, Hu. simpl.
  rewrite decide_True by done. simpl. rewrite !lookup_insert_eq. simpl.
  by rewrite Hlive.
Qed.

Lemma double_registration_doubles_delivery_witness :
  active_connections initial_state !! 7 = None ∧
  broken initial_state !! 10%nat = None ∧
  trace (exec (broadcast_to_user 7 (low_balance_event 1))
           (exec (connect 10%nat 7) (exec (connect 10%nat 7) initial_state)))
  = [EvSend 10%nat (low_balance_event 1); EvSend 10%nat (low_balance_event 1)].
Proof.
  split_and!; [reflexivity..|].
  destruct (double_registration_doubles_delivery initial_state 10%nat 7
              (low_balance_event 1) eq_refl eq_refl) as (_ & Htrace & _).
  exact Htrace.
Defined.

(** X3. A registry call for one user leaves the entries of all other users
    as they are, and no registry call touches the store, the clock or the
    set of broken connections. *)
Theorem registry_calls_are_local (s : State) (websocket : nat) (user_id other : Z)
    (message : Message) :
  other ≠ user_id →
  (active_connections (exec (connect websocket user_id) s) !! other
   = active_connections s !! other ∧
   active_connections (exec (disconnect user_id websocket) s) !! other
   = active_connections s !! other ∧
   active_connections (exec (broadcast_to_user user_id message) s)
   = active_connections s) ∧
  ∀ c, db (exec (registry_call c) s) = db s ∧
       clock (exec (registry_call c) s) = clock s ∧
       broken (exec (registry_call c) s) = broken s.
Proof.
  intros Hne. split_and!.
  - unfold exec. destruct (broken s !! websocket) as [e|] eqn:Hb.
    + by rewrite (connect_refused _ _ s e).
    + rewrite connect_accepted by done. simpl. by rewrite lookup_insert_ne.
  - unfold exec, disconnect.
    destruct (active_connections s !! user_id) as [conns|]; [|done].
    destruct (list_remove websocket conns) as [[|c conns']|]; simpl; [| |done].
    + by rewrite lookup_delete_ne, lookup_insert_ne.
    + by rewrite lookup_insert_ne.
  - unfold exec. by rewrite broadcast_to_user_fan_out.
  - intros [ws u|u ws|u m]; unfold exec; simpl.
    + destruct (broken s !! ws) as [e|] eqn:Hb.
      * by rewrite (connect_refused _ _ s e).
      * by rewrite connect_accepted.
    + unfold disconnect.
      destruct (active_connections s !! u) as [conns|]; [|done].
      by destruct (list_remove ws conns) as [[|c conns']|].
    + by rewrite broadcast_to_user_fan_out.
Qed.

Lemma registry_calls_are_local_witness :
  (2 : Z) ≠ 1 ∧
  active_connections (exec (disconnect 1 10%nat) demo_state) !! 2
  = active_connections demo_state !! 2.
Proof.
  assert (Hne : (2 : Z) ≠ 1) by lia. split; [exact Hne|].
  destruct (registry_calls_are_local demo_state 10%nat 1 2 [] Hne)
    as [(_ & Hd & _) _].
  exact Hd.
Defined.

Lemma sends_of_app evs evs' : sends_of (evs ++ evs') = sends_of evs ++ sends_of evs'.
Proof. unfold sends_of. apply omap_app. Qed.

Lemma sends_of_send_events brk message conns :
  sends_of (send_events brk message conns)
  = (λ c, (c, message)) <$> filter (λ c, brk !! c = None) conns.
Proof.
  induction conns as [|c conns IH]; [done|].
  replace (send_events brk message (c :: conns))
    with (send_events brk message [c] ++ send_events brk message conns) by done.
  rewrite sends_of_app, IH, filter_cons. unfold send_events, sends_of. simpl.
  destruct (brk !! c) as [e|] eqn:Hc.
  - by rewrite decide_False.
  - by rewrite decide_True.
Qed.

(** X4. [broadcast_to_user] changes nothing but the trace, and what it puts
    on the wire is the message, once per registration of the user whose
    send works, in the order of registration. *)
Theorem broadcast_sends_in_registration_order (s : State) (user_id : Z)
    (message : Message) (conns : list nat) :
  active_connections s !! user_id = Some conns →
  ∃ evs,
    broadcast_to_user user_id message s = (Ok tt, emit_all evs s) ∧
    sends_of evs
    = (λ c, (c, message)) <$> filter (λ c, broken s !! c = None) conns.
Proof.
  intros Hu. exists (fan_out s user_id message).
  split; [apply broadcast_to_user_fan_out|].
  unfold fan_out. rewrite Hu. apply sends_of_send_events.
Qed.

Lemma broadcast_sends_in_registration_order_witness :
  active_connections demo_state !! 1 = Some [10%nat; 11%nat] ∧
  ∃ evs,
    broadcast_to_user 1 (low_balance_event 1) demo_state
    = (Ok tt, emit_all evs demo_state) ∧
    sends_of evs = [(11%nat, low_balance_event 1)].
Proof.
  split; [reflexivity|].
  destruct (broadcast_sends_in_registration_order demo_state 1
              (low_balance_event 1) [10%nat; 11%nat] eq_refl) as (evs & E & Hs).
  exists evs. split; [exact E|]. rewrite Hs. reflexivity.
Defined.

Lemma fan_out_emit_all evs s user_id message :
  fan_out (emit_all evs s) user_id message = fan_out s user_id message.
Proof. done. Qed.

Lemma broadcast_to_all_fan_out keys message s :
  broadcast_to_all keys message s
  = (Ok tt, emit_all (keys ≫= λ u, fan_out s u message) s).
Proof.
  unfold broadcast_to_all. revert s.
  induction keys as [|u keys IH]; intros s.
  - simpl. unfold ret. by rewrite emit_all_nil.
  - cbn [for_each].
    rewrite (bind_ok _ _ _ _ _ (broadcast_to_user_fan_out u message s)).
    rewrite IH, emit_all_app. done.
Qed.

(** X5. [broadcast_to_all], walking the keys of the registry in whatever
    order the dict has them, returns normally and changes nothing but the
    trace; every registered connection whose send works gets the message,
    and nothing else is put on the wire: only this message, only on
    registered connections whose send works. *)
Theorem broadcast_to_all_reaches_every_connection (s : State) (keys : list Z)
    (message : Message) :
  (∀ u, is_Some (active_connections s !! u) → u ∈ keys) →
  ∃ evs,
    broadcast_to_all keys message s = (Ok tt, emit_all evs s) ∧
    (∀ u conns c,
       active_connections s !! u = Some conns →
       c ∈ conns →
       broken s !! c = None →
       (c, message) ∈ sends_of evs) ∧
    (∀ c m,
       (c, m) ∈ sends_of evs →
       m = message ∧
       broken s !! c = None ∧
       ∃ u conns, active_connections s !! u = Some conns ∧ c ∈ conns).
Proof.
  intros Hkeys. eexists. split; [apply broadcast_to_all_fan_out|]. split.
  - intros u conns c Hu Hc Hlive. unfold sends_of.
    apply list_elem_of_omap. exists (EvSend c message). split; [|done].
    apply list_elem_of_bind. exists u. split; [|by apply Hkeys; rewrite Hu].
    unfold fan_out. rewrite Hu. by apply elem_of_send_events_live.
  - intros c m Hcm. unfold sends_of in Hcm.
    apply list_elem_of_omap in Hcm as (ev & Hev & Hsend).
    destruct ev as [c' m'| |]; simplify_eq.
    apply list_elem_of_bind in Hev as (u & Hev & _).
    apply elem_of_send_events_inv in Hev as (Hc & Hlive & ->).
    split_and!; [done..|].
    destruct (active_connections s !! u) as [conns|] eqn:Hu.
    + by exists u, conns.
    + by apply elem_of_nil in Hc.
Qed.

Lemma broadcast_to_all_reaches_every_connection_witness :
  (∀ u, is_Some (active_connections demo_state !! u) → u ∈ [1]) ∧
  ∃ evs,
    broadcast_to_all [1] (low_balance_event 1) demo_state
    = (Ok tt, emit_all evs demo_state) ∧
    (11%nat, low_balance_event 1) ∈ sends_of evs.
Proof.
  assert (Hkeys : ∀ u, is_Some (active_connections demo_state !! u) → u ∈ [1]).
  { intros u [conns Hu]. unfold demo_state in Hu. simpl in Hu.
    apply lookup_singleton_Some in Hu as [<- _]. left. }
  split; [exact Hkeys|].
  destruct (broadcast_to_all_reaches_every_connection demo_state [1]
              (low_balance_event 1) Hkeys) as (evs & E & Hall & _).
  exists evs. split; [exact E|].
  apply (Hall 1 [10%nat; 11%nat] 11%nat eq_refl); [|reflexivity].
  right. left.
Defined.

(** ** The WebSocket endpoint *)

Lemma receive_loop_raises meanwhile (P : State → Prop) frames round closing s :
  (∀ n s, P s → P (meanwhile n s)) →
  P s →
  ∃ s', receive_loop meanwhile frames round closing s = (Raise closing, s') ∧ P s'.
Proof.
  intros Hkeep. revert round s.
  induction frames as [|frames IH]; intros round s HP.
  - exists (meanwhile round s). split; [done|by apply Hkeep].
  - cbn [receive_loop]. unfold bind at 1, modify at 1. apply IH. by apply Hkeep.
Qed.

(** X6. A client that authenticates, is accepted on a connection not yet
    registered for it, sends any number of texts and then goes away leaves
    no registration behind: whatever the other tasks did meanwhile to the
    rest of the state, the endpoint returns normally and the entry of the
    user is what it was before the call. The end of the connection is
    printed as an error. *)
Theorem websocket_session_leaves_no_registration
    (meanwhile : nat → State → State) (websocket : nat) (user : User.t)
    (frames : nat) (closing : Exception) (s : State) :
  (∀ n s, active_connections (meanwhile n s) !! User.id user
          = active_connections s !! User.id user) →
  broken s !! websocket = None →
  active_connections s !! User.id user ≠ Some [] →
  (∀ conns, active_connections s !! User.id user = Some conns → websocket ∉ conns) →
  let end_state :=
    websocket_notifications meanwhile websocket (Ok user) frames closing s in
  end_state.1 = Returned ∧
  active_connections end_state.2 !! User.id user
  = active_connections s !! User.id user ∧
  ∃ t, trace end_state.2 = t ++ [EvPrint ("Erro no WebSocket: " +:+ str closing)].
Proof.
  intros Hmean Hlive Hne Hfresh end_state. subst end_state.
  set (u := User.id user) in *.
  set (conns0 := default [] (active_connections s !! u)).
  assert (Hfresh0 : websocket ∉ conns0).
  { unfold conns0. destruct (active_connections s !! u) as [conns|] eqn:Hu.
    - by apply Hfresh.
    - apply not_elem_of_nil. }
  destruct (receive_loop_raises meanwhile
              (λ s', active_connections s' !! u = Some (conns0 ++ [websocket]))
              frames 0 closing
              (exec (connect websocket u) s))
    as (s1 & E1 & Hs1).
  { intros n s' Hs'. by rewrite Hmean. }
  { unfold exec. rewrite connect_accepted by done. simpl.
    by rewrite lookup_insert_eq. }
  assert (E : bind (connect websocket u)
                (λ _, receive_loop meanwhile frames 0 closing) s
              = (Raise closing, s1)).
  { unfold exec in E1. rewrite connect_accepted in E1 by done.
    by rewrite (bind_ok _ _ _ _ _ (connect_accepted websocket u s Hlive)). }
  unfold websocket_notifications. fold u. rewrite E.
  unfold disconnect. cbn [active_connections emit emit_all]. rewrite Hs1.
  rewrite list_remove_app_fresh by done.
  destruct conns0 as [|c conns'] eqn:Hconns0; cbn [fst snd].
  - split_and!; [done| |by eexists].
    simpl. rewrite lookup_delete_eq. unfold conns0 in Hconns0.
    destruct (active_connections s !! u) as [conns|]; [|done].
    simpl in Hconns0. by subst conns.
  - split_and!; [done| |by eexists].
    simpl. rewrite lookup_insert_eq. unfold conns0 in Hconns0.
    destruct (active_connections s !! u) as [conns|]; [|done].
    simpl in Hconns0. by subst conns.
Qed.

Lemma websocket_session_leaves_no_registration_witness :
  broken demo_state !! 12%nat = None ∧
  (websocket_notifications (λ _ s, s) 12%nat (Ok ana) 3
     (RuntimeError "client left") demo_state).1 = Returned.
Proof.
  split; [reflexivity|].
  apply (websocket_session_leaves_no_registration (λ _ s, s) 12%nat ana 3
           (RuntimeError "client left") demo_state).
  - reflexivity.
  - reflexivity.
  - discriminate.
  - intros conns Hconns. vm_compute in Hconns. injection Hconns as <-.
    intros Hin. repeat (apply elem_of_cons in Hin as [Hin|Hin]; [lia|]).
    by apply elem_of_nil in Hin.
Defined.

Lemma disconnect_outcomes user_id websocket s :
  outcome (disconnect user_id websocket) s = Ok tt ∨
  disconnect user_id websocket s
  = (Raise (ValueError "list.remove(x): x not in list"), s).
Proof.
  unfold outcome, disconnect.
  destruct (active_connections s !! user_id) as [conns|]; [|by left].
  destruct (list_remove websocket conns); [by left|by right].
Qed.

(** X7. Of all the errors met by the endpoint only two leave it, both raised
    by its [finally] block: the unbound [current_user], exactly when the
    authentication failed (nothing was registered then, the error is only
    printed), and the [ValueError] of [disconnect]. The errors of the
    authentication, of [accept] and of the connection itself are printed
    and go no further. *)
Theorem websocket_endpoint_escapes (meanwhile : nat → State → State)
    (websocket : nat) (get_current_user_from_token : Result User.t)
    (frames : nat) (closing : Exception) (s : State) :
  let end_state :=
    websocket_notifications meanwhile websocket get_current_user_from_token
      frames closing s in
  (end_state.1 = UnboundLocalError "current_user"
   ↔ ∃ e, get_current_user_from_token = Raise e) ∧
  (end_state.1 = Returned ∨
   end_state.1 = Escaped (ValueError "list.remove(x): x not in list") ∨
   end_state.1 = UnboundLocalError "current_user") ∧
  (∀ e, get_current_user_from_token = Raise e →
        end_state.2 = emit (EvPrint ("Erro no WebSocket: " +:+ str e)) s).
Proof.
  intros end_state. subst end_state. unfold websocket_notifications.
  destruct get_current_user_from_token as [user|e].
  - destruct (bind _ _ s) as [tried s1].
    match goal with
    | |- context [disconnect ?u ?w ?s2] =>
        destruct (disconnect_outcomes u w s2) as [Hd|Hd]
    end.
    + unfold outcome in Hd.
      match goal with
      | |- context [disconnect ?u ?w ?s2] =>
          destruct (disconnect u w s2) as [[[]|e] s3]
      end; [|done]. cbn [fst snd].
      split_and!; [|by left|done]. split; [done|]. by intros [e' ?].
    + rewrite Hd. cbn [fst snd].
      split_and!; [|by right; left|done]. split; [done|]. by intros [e' ?].
  - cbn [fst snd]. split_and!; [|by right; right|].
    + split; [by eexists|done].
    + by intros e' [= <-].
Qed.

(** X8. When [accept] fails, nothing is registered and the failure is
    printed; the endpoint then returns normally only if the user has no
    other connection: with another connection registered, the [disconnect]
    of the [finally] block raises [ValueError], which leaves the endpoint. *)
Theorem websocket_refused_connection (meanwhile : nat → State → State)
    (websocket : nat) (user : User.t) (frames : nat) (closing e : Exception)
    (s : State) :
  broken s !! websocket = Some e →
  (∀ conns, active_connections s !! User.id user = Some conns → websocket ∉ conns) →
  websocket_notifications meanwhile websocket (Ok user) frames closing s
  = (match active_connections s !! User.id user with
     | None => Returned
     | Some _ => Escaped (ValueError "list.remove(x): x not in list")
     end,
     emit (EvPrint ("Erro no WebSocket: " +:+ str e)) s).
Proof.
  intros Hb Hfresh. unfold websocket_notifications.
  rewrite (bind_raise _ _ _ _ _ (connect_refused websocket (User.id user) s e Hb)).
  unfold disconnect. cbn [active_connections emit emit_all].
  destruct (active_connections s !! User.id user) as [conns|] eqn:Hu; [|done].
  by rewrite list_remove_absent by auto.
Qed.

Lemma websocket_refused_connection_witness :
  broken demo_state !! 10%nat = Some (RuntimeError "connection closed") ∧
  (websocket_notifications (λ _ s, s) 10%nat (Ok rui) 0
     (RuntimeError "client left") demo_state).1 = Returned.
Proof.
  split; [reflexivity|].
  rewrite (websocket_refused_connection (λ _ s, s) 10%nat rui 0
             (RuntimeError "client left") (RuntimeError "connection closed")
             demo_state eq_refl).
  - reflexivity.
  - intros conns Hconns. vm_compute in Hconns. discriminate Hconns.
Defined.

(** ** The listing endpoints *)

Lemma get_user_lines_loop (subs : list UserLine.t) acc s :
  fault (db s) = None →
  for_each_acc subs acc (λ user_line lines_data,
    transit_line <- query transit_lines
      (λ tl, TransitLine.id tl = UserLine.line_id user_line) ;;
    match head transit_line with
    | Some transit_line => ret (lines_data ++ [line_json transit_line])
    | None => ret lines_data
    end) s
  = (Ok (acc ++ omap (λ ul, line_json <$> followed_line (db s) ul) subs), s).
Proof.
  intros Hf. revert acc. induction subs as [|ul subs IH]; intros acc.
  - simpl. unfold ret. by rewrite app_nil_r.
  - cbn [for_each_acc]. unfold bind at 1.
    rewrite (bind_ok _ _ _ _ _ (query_ok _ _ s Hf)).
    cbn [omap list_omap]. unfold followed_line at 1.
    destruct (head _) as [tl|]; cbn [fmap option_fmap option_map].
    + unfold ret at 1. rewrite IH. by rewrite <- app_assoc.
    + unfold ret at 1. by rewrite IH.
Qed.

Lemma get_user_lines_ok current_user s :
  fault (db s) = None →
  get_user_lines current_user s
  = (Ok (JSONResponse (JDict [("lines", JList
       (omap (λ ul, line_json <$> followed_line (db s) ul)
          (filter (λ ul, UserLine.user_id ul = User.id current_user)
             (user_lines (db s)))))])), s).
Proof.
  intros Hf. unfold get_user_lines, try_except.
  rewrite (bind_ok _ _ _ _ _ (query_ok _ _ s Hf)).
  by rewrite (bind_ok _ _ _ _ _ (get_user_lines_loop _ [] s Hf)).
Qed.

Lemma get_user_lines_fault current_user s e :
  fault (db s) = Some e →
  get_user_lines current_user s = (Raise (HTTPException 500 (str e)), s).
Proof.
  intros Hf. unfold get_user_lines, try_except.
  by rewrite (bind_raise _ _ _ _ _ (query_fault _ _ s e Hf)).
Qed.

Lemma followed_line_Some d ul tl :
  followed_line d ul = Some tl →
  tl ∈ transit_lines d ∧ TransitLine.id tl = UserLine.line_id ul.
Proof.
  unfold followed_line. intros [Hid Hin]%head_filter_Some. done.
Qed.

Lemma followed_line_exists d ul tl :
  tl ∈ transit_lines d → TransitLine.id tl = UserLine.line_id ul →
  is_Some (followed_line d ul).
Proof.
  intros Hin Hid. unfold followed_line.
  destruct (filter _ (transit_lines d)) as [|tl' l] eqn:Hq; [|by eexists].
  by destruct (filter_nil_not_elem_of _ _ tl Hq Hid).
Qed.

Lemma length_omap_le {A B} (f : A → option B) (l : list A) :
  (length (omap f l) ≤ length l)%nat.
Proof.
  induction l as [|x l IH]; [done|].
  cbn [omap list_omap length]. destruct (f x); cbn [length]; lia.
Qed.

(** X9. With the store up, [get_user_lines] answers with the lines the user
    follows and changes nothing: every entry is the line of one of the
    user's subscriptions, every subscription of the user to a line that
    exists has its entry, subscriptions to lines that do not exist are
    skipped, and the lines followed by others only are not listed. *)
Theorem get_user_lines_lists_followed_lines (s : State) (current_user : User.t) :
  fault (db s) = None →
  ∃ lines_data,
    get_user_lines current_user s
    = (Ok (JSONResponse (JDict [("lines", JList lines_data)])), s) ∧
    (∀ entry, entry ∈ lines_data →
       ∃ ul tl, ul ∈ user_lines (db s) ∧
                UserLine.user_id ul = User.id current_user ∧
                tl ∈ transit_lines (db s) ∧
                TransitLine.id tl = UserLine.line_id ul ∧
                entry = line_json tl) ∧
    (∀ ul tl, ul ∈ user_lines (db s) →
              UserLine.user_id ul = User.id current_user →
              tl ∈ transit_lines (db s) →
              TransitLine.id tl = UserLine.line_id ul →
              ∃ tl', tl' ∈ transit_lines (db s) ∧
                     TransitLine.id tl' = UserLine.line_id ul ∧
                     line_json tl' ∈ lines_data) ∧
    (length lines_data
     ≤ length (filter (λ ul, UserLine.user_id ul = User.id current_user)
                 (user_lines (db s))))%nat.
Proof.
  intros Hf. eexists. split; [by apply get_user_lines_ok|]. split_and!.
  - intros entry (ul & Hul & Hentry)%list_elem_of_omap.
    apply list_elem_of_filter in Hul as [Hu Hul].
    destruct (followed_line (db s) ul) as [tl|] eqn:Hfl; [|done].
    apply followed_line_Some in Hfl as [Hin Hid].
    exists ul, tl. simpl in Hentry. by simplify_eq.
  - intros ul tl Hul Hu Hin Hid.
    destruct (followed_line_exists (db s) ul tl Hin Hid) as [tl' Hfl].
    pose proof (followed_line_Some _ _ _ Hfl) as [Hin' Hid'].
    exists tl'. split_and!; [done..|].
    apply list_elem_of_omap. exists ul. split; [by apply list_elem_of_filter|].
    by rewrite Hfl.
  - apply length_omap_le.
Qed.

Lemma get_user_lines_lists_followed_lines_witness :
  fault (db demo_state) = None ∧
  ∃ lines_data,
    get_user_lines ana demo_state
    = (Ok (JSONResponse (JDict [("lines", JList lines_data)])), demo_state) ∧
    (length lines_data ≤ 1)%nat.
Proof.
  split; [reflexivity|].
  destruct (get_user_lines_lists_followed_lines demo_state ana eq_refl)
    as (lines_data & E & _ & _ & Hlen).
  exists lines_data. split; [exact E|exact Hlen].
Defined.

Lemma get_notifications_ok current_user s :
  fault (db s) = None →
  get_notifications current_user s
  = (Ok (JSONResponse (JDict [("notifications", JList
       (notification_json <$>
        merge_sort created_at_desc
          (filter (λ n, NotificationLog.user_id n = User.id current_user ∧
                        clock s - timedelta_days 7 ≤ NotificationLog.created_at n)
             (rows (db s)))))])), s).
Proof.
  intros Hf. unfold get_notifications, try_except. rewrite bind_get.
  by rewrite (bind_ok _ _ _ _ _ (query_ok _ _ s Hf)).
Qed.

Lemma get_notifications_fault current_user s e :
  fault (db s) = Some e →
  get_notifications current_user s = (Raise (HTTPException 500 (str e)), s).
Proof.
  intros Hf. unfold get_notifications, try_except. rewrite bind_get.
  by rewrite (bind_raise _ _ _ _ _ (query_fault _ _ s e Hf)).
Qed.

Lemma created_at_desc_total : Total created_at_desc.
Proof. intros a b. unfold created_at_desc. lia. Qed.

Lemma created_at_desc_trans : Transitive created_at_desc.
Proof. intros a b c. unfold created_at_desc. lia. Qed.

Lemma StronglySorted_lookup_lt {A} (R : relation A) l i j a b :
  StronglySorted R l → (i < j)%nat → l !! i = Some a → l !! j = Some b → R a b.
Proof.
  intros Hl. revert i j. induction Hl as [|x l Hl IH Hx]; intros i j Hij Hi Hj.
  - done.
  - destruct j as [|j]; [lia|]. destruct i as [|i]; simpl in *.
    + simplify_eq. rewrite Forall_forall in Hx. apply Hx.
      by eapply list_elem_of_lookup_2.
    + apply (IH i j); [lia|done..].
Qed.

(** X10. With the store up, [get_notifications] changes nothing and answers
    with the rows of the user that are at most seven days old, each of them
    once, the newest first; rows of other users and older rows are left
    out. *)
Theorem get_notifications_lists_recent_rows_newest_first (s : State)
    (current_user : User.t) :
  fault (db s) = None →
  ∃ notifications,
    get_notifications current_user s
    = (Ok (JSONResponse (JDict [("notifications",
             JList (notification_json <$> notifications))])), s) ∧
    notifications
    ≡ₚ filter (λ n, NotificationLog.user_id n = User.id current_user ∧
                    clock s - 7 * 86400 ≤ NotificationLog.created_at n)
         (rows (db s)) ∧
    (∀ i j a b,
       (i ≤ j)%nat →
       notifications !! i = Some a →
       notifications !! j = Some b →
       NotificationLog.created_at b ≤ NotificationLog.created_at a).
Proof.
  intros Hf. eexists. split; [by apply get_notifications_ok|]. split.
  - apply merge_sort_Permutation.
  - intros i j a b Hij Hi Hj.
    destruct (decide (i = j)) as [->|Hne]; [by simplify_eq|].
    eapply (StronglySorted_lookup_lt created_at_desc _ i j a b); [|lia|done..].
    apply (@StronglySorted_merge_sort _ _ _ created_at_desc_trans
             created_at_desc_total).
Qed.

Lemma get_notifications_lists_recent_rows_newest_first_witness :
  fault (db demo_state_notified) = None ∧
  ∃ notifications,
    outcome (get_notifications ana) demo_state_notified
    = Ok (JSONResponse (JDict [("notifications",
            JList (notification_json <$> notifications))])) ∧
    length notifications = 1%nat.
Proof.
  split; [reflexivity|].
  destruct (get_notifications_lists_recent_rows_newest_first
              demo_state_notified ana eq_refl)
    as (notifications & E & Hperm & _).
  exists notifications. split.
  - unfold outcome. rewrite E. reflexivity.
  - rewrite Hperm. reflexivity.
Defined.

(** X11. An endpoint that fails always fails with status 500, whatever went
    wrong (the store being down, or the notification to mark not being
    there), and it leaves the state as it found it. *)
Theorem endpoints_fail_with_500 (s : State) (current_user : User.t)
    (notification_id : Z) (e : Exception) :
  (outcome (get_user_lines current_user) s = Raise e →
   (∃ detail, e = HTTPException 500 detail) ∧
   exec (get_user_lines current_user) s = s) ∧
  (outcome (get_notifications current_user) s = Raise e →
   (∃ detail, e = HTTPException 500 detail) ∧
   exec (get_notifications current_user) s = s) ∧
  (outcome (mark_notification_read notification_id current_user) s = Raise e →
   (∃ detail, e = HTTPException 500 detail) ∧
   exec (mark_notification_read notification_id current_user) s = s) ∧
  (outcome (mark_all_notifications_read current_user) s = Raise e →
   (∃ detail, e = HTTPException 500 detail) ∧
   exec (mark_all_notifications_read current_user) s = s).
Proof.
  unfold outcome, exec. destruct (fault (db s)) as [e0|] eqn:Hf.
  - rewrite (get_user_lines_fault _ s e0 Hf),
      (get_notifications_fault _ s e0 Hf),
      (mark_notification_read_fault _ _ s e0 Hf),
      (mark_all_notifications_read_fault _ s e0 Hf). cbn [fst snd].
    split_and!; intros [= <-]; by eauto.
  - rewrite (get_user_lines_ok _ s Hf), (get_notifications_ok _ s Hf),
      (mark_all_notifications_read_ok _ s Hf). cbn [fst snd].
    split_and!; try done.
    destruct (head (filter (λ n, NotificationLog.id n = notification_id ∧
                                 NotificationLog.user_id n = User.id current_user)
                      (rows (db s)))) as [n|] eqn:Hq.
    + by rewrite (mark_notification_read_found _ _ s n Hf Hq).
    + rewrite mark_notification_read_not_found; [|done|].
      * cbn [fst snd]. intros [= <-]. by eauto.
      * apply head_None in Hq. intros n Hn HP.
        by eapply (filter_nil_not_elem_of _ _ n Hq).
Qed.

Lemma endpoints_fail_with_500_witness :
  outcome (mark_notification_read 1 ana) demo_state
  = Raise (HTTPException 500 "404: Notificação não encontrada") ∧
  exec (mark_notification_read 1 ana) demo_state = demo_state.
Proof.
  split; [reflexivity|].
  destruct (endpoints_fail_with_500 demo_state ana 1
              (HTTPException 500 "404: Notificação não encontrada"))
    as (_ & _ & Hmark & _).
  apply (Hmark eq_refl).
Defined.

(** ** Marking one notification read *)

Lemma update_first_at (P : NotificationLog.t → Prop) `{∀ x, Decision (P x)}
    f l i n :
  l !! i = Some n → P n →
  (∀ j m, (j < i)%nat → l !! j = Some m → ¬ P m) →
  update_first P f l = <[i := f n]> l ∧ head (filter P l) = Some n.
Proof.
  revert i. induction l as [|x l IH]; intros i Hi HP Hbefore; [done|].
  destruct i as [|i]; simpl in Hi.
  - simplify_eq. simpl. rewrite filter_cons, !decide_True by done. done.
  - assert (Hx : ¬ P x) by (apply (Hbefore 0%nat); [lia|done]).
    destruct (IH i Hi HP) as [E1 E2].
    { intros j m Hj Hm. apply (Hbefore (S j)); [lia|done]. }
    simpl. rewrite filter_cons, !decide_False by done. by rewrite E1.
Qed.

Lemma update_first_other (P : NotificationLog.t → Prop) `{∀ x, Decision (P x)}
    f l i n :
  l !! i = Some n → ¬ P n → update_first P f l !! i = Some n.
Proof.
  revert i. induction l as [|x l IH]; intros i Hi HP; [done|].
  simpl. destruct (decide (P x)) as [Hx|Hx].
  - destruct i as [|i]; simpl in *; [by simplify_eq|done].
  - destruct i as [|i]; simpl in *; [done|by apply IH].
Qed.

Lemma update_first_again (P : NotificationLog.t → Prop) `{∀ x, Decision (P x)}
    f l :
  (∀ n, P n → P (f n)) → (∀ n, f (f n) = f n) →
  update_first P f (update_first P f l) = update_first P f l ∧
  (is_Some (head (filter P l)) → is_Some (head (filter P (update_first P f l)))).
Proof.
  intros HPf Hff. induction l as [|x l [IH1 IH2]]; [done|].
  simpl. destruct (decide (P x)) as [Hx|Hx]; simpl.
  - rewrite decide_True by auto. rewrite Hff.
    split; [done|]. intros _. rewrite filter_cons_True by auto. by eexists.
  - rewrite decide_False by done. rewrite IH1. split; [done|].
    by rewrite !filter_cons_False.
Qed.

(** X12. With the store up, marking a notification of the user read
    succeeds, turns the flag of the first row with that identifier and owner
    to read, leaves every other row and the number of rows as they are, and
    commits. *)
Theorem mark_notification_read_marks_the_row (s : State) (notification_id : Z)
    (current_user : User.t) (i : nat) (n : NotificationLog.t) :
  fault (db s) = None →
  rows (db s) !! i = Some n →
  NotificationLog.id n = notification_id →
  NotificationLog.user_id n = User.id current_user →
  (∀ j m, (j < i)%nat → rows (db s) !! j = Some m →
          ¬ (NotificationLog.id m = notification_id ∧
             NotificationLog.user_id m = User.id current_user)) →
  let s' := exec (mark_notification_read notification_id current_user) s in
  outcome (mark_notification_read notification_id current_user) s = Ok success ∧
  rows (db s') = <[i := NotificationLog.set_read true n]> (rows (db s)) ∧
  durable (db s') = rows (db s').
Proof.
  intros Hf Hi Hid Hu Hbefore s'. subst s'.
  destruct (update_first_at
              (λ m, NotificationLog.id m = notification_id ∧
                    NotificationLog.user_id m = User.id current_user)
              (NotificationLog.set_read true) (rows (db s)) i n Hi)
    as [Hupd Hhead]; [done..|].
  unfold outcome, exec.
  rewrite (mark_notification_read_found _ _ s n Hf Hhead). cbn [fst snd].
  split_and!; [done| |done]. simpl. exact Hupd.
Qed.

Lemma mark_notification_read_marks_the_row_witness :
  fault (db demo_state_notified) = None ∧
  NotificationLog.read <$>
    rows (db (exec (mark_notification_read 1 ana)
                demo_state_notified))
  = [true].
Proof.
  split; [reflexivity|].
  destruct (mark_notification_read_marks_the_row
              demo_state_notified 1 ana 0%nat
              _ eq_refl eq_refl eq_refl eq_refl) as (_ & Hrows & _).
  - intros j m Hj. lia.
  - rewrite Hrows. reflexivity.
Defined.

(** X13. Marking a notification read a second time changes nothing more,
    and no call ever changes a row with another identifier or another
    owner. *)
Theorem mark_notification_read_idempotent_and_owned (s : State)
    (notification_id : Z) (current_user : User.t) :
  let s1 := exec (mark_notification_read notification_id current_user) s in
  exec (mark_notification_read notification_id current_user) s1 = s1 ∧
  ∀ i n, rows (db s) !! i = Some n →
         ¬ (NotificationLog.id n = notification_id ∧
            NotificationLog.user_id n = User.id current_user) →
         rows (db s1) !! i = Some n.
Proof.
  intros s1. subst s1. unfold exec.
  set (P := λ m, NotificationLog.id m = notification_id ∧
                 NotificationLog.user_id m = User.id current_user).
  destruct (fault (db s)) as [e|] eqn:Hf.
  - rewrite (mark_notification_read_fault _ _ s e Hf). cbn [snd].
    by rewrite (mark_notification_read_fault _ _ s e Hf).
  - destruct (head (filter P (rows (db s)))) as [n0|] eqn:Hq.
    + rewrite (mark_notification_read_found _ _ s n0 Hf Hq). cbn [snd].
      destruct (update_first_again P (NotificationLog.set_read true) (rows (db s)))
        as [Hagain Hstill]; [by intros [] []|by intros []|].
      destruct Hstill as [n1 Hq1]; [by eexists|]. split.
      * rewrite (mark_notification_read_found _ _ _ n1); [|done|exact Hq1].
        cbn [snd]. unfold with_db, commit, with_rows. simpl.
        fold P. by rewrite Hagain.
      * intros i n Hi HP. simpl. by apply update_first_other.
    + assert (Hnone : ∀ n, n ∈ rows (db s) → ¬ P n).
      { apply head_None in Hq. intros n Hn HP.
        by eapply (filter_nil_not_elem_of _ _ n Hq). }
      rewrite (mark_notification_read_not_found _ _ s Hf Hnone). cbn [snd].
      by rewrite (mark_notification_read_not_found _ _ s Hf Hnone).
Qed.

(** ** Notifying the followers of a line, continued *)

Lemma elem_of_new_rows_inv now next ty ti me us n :
  n ∈ new_rows now next ty ti me us →
  NotificationLog.user_id n ∈ us ∧
  NotificationLog.notification_type n = ty ∧
  NotificationLog.title n = ti ∧
  NotificationLog.message n = me ∧
  NotificationLog.read n = false ∧
  NotificationLog.created_at n = now.
Proof.
  revert next. induction us as [|u us IH]; intros next Hn.
  - by apply elem_of_nil in Hn.
  - simpl in Hn. apply elem_of_cons in Hn as [->|Hn].
    + simpl. split_and!; [left|done..].
    + destruct (IH _ Hn) as (Hu & Hrest). split; [by right|done].
Qed.

Lemma elem_of_subscribers line d u :
  u ∈ subscribers line d →
  ∃ ul, ul ∈ user_lines d ∧
        UserLine.line_id ul = TransitLine.id line ∧
        UserLine.user_id ul = u.
Proof.
  unfold subscribers. intros (ul & -> & Hul)%list_elem_of_fmap.
  apply list_elem_of_filter in Hul as [Hline Hul]. by exists ul.
Qed.

Lemma elem_of_sends_of_fan_outs s (us : list Z) message c m :
  (c, m) ∈ sends_of (us ≫= λ u, fan_out s u message) →
  m = message ∧
  ∃ u conns, u ∈ us ∧ active_connections s !! u = Some conns ∧ c ∈ conns.
Proof.
  unfold sends_of. intros (ev & Hev & Hsend)%list_elem_of_omap.
  destruct ev as [c' m'| |]; simplify_eq.
  apply list_elem_of_bind in Hev as (u & Hev & Hu).
  apply elem_of_send_events_inv in Hev as (Hc & _ & ->). split; [done|].
  destruct (active_connections s !! u) as [conns|] eqn:Hconns.
  - by exists u, conns.
  - by apply elem_of_nil in Hc.
Qed.

(** X14. With the store up, [notify_users_about_line_delay] writes rows for
    the followers of the line only and sends the event on connections of
    followers only; the rows are committed and the registry is left as it
    is. *)
Theorem notify_reaches_only_followers (s : State) (line : TransitLine.t)
    (delay_minutes : Z) (reason : string) :
  fault (db s) = None →
  let s' := exec (notify_users_about_line_delay line delay_minutes reason) s in
  (∃ new,
     rows (db s') = rows (db s) ++ new ∧
     ∀ n, n ∈ new →
          NotificationLog.notification_type n = "line_delay" ∧
          NotificationLog.created_at n = clock s ∧
          ∃ ul, ul ∈ user_lines (db s) ∧
                UserLine.line_id ul = TransitLine.id line ∧
                UserLine.user_id ul = NotificationLog.user_id n) ∧
  (∃ evs,
     trace s' = trace s ++ evs ∧
     ∀ c m, (c, m) ∈ sends_of evs →
            m = line_delay_event line delay_minutes reason ∧
            ∃ ul conns, ul ∈ user_lines (db s) ∧
                        UserLine.line_id ul = TransitLine.id line ∧
                        active_connections s !! UserLine.user_id ul = Some conns ∧
                        c ∈ conns) ∧
  durable (db s') = rows (db s') ∧
  active_connections s' = active_connections s.
Proof.
  intros Hf s'. subst s'. unfold exec.
  rewrite notify_users_about_line_delay_ok by done. cbn [snd].
  split_and!; [| |done..].
  - eexists. split; [done|]. intros n Hn.
    apply elem_of_new_rows_inv in Hn as (Hu & Hty & _ & _ & _ & Hnow).
    split_and!; [done..|]. by apply elem_of_subscribers.
  - eexists. split; [done|]. intros c m Hcm.
    apply elem_of_sends_of_fan_outs in Hcm as (-> & u & conns & Hu & Hconns & Hc).
    split; [done|].
    apply elem_of_subscribers in Hu as (ul & Hul & Hline & <-).
    by exists ul, conns.
Qed.

Lemma notify_reaches_only_followers_witness :
  fault (db demo_state) = None ∧
  durable (db (exec (notify_users_about_line_delay linha_101 15 "accident")
                 demo_state))
  = rows (db (exec (notify_users_about_line_delay linha_101 15 "accident")
                demo_state)).
Proof.
  split; [reflexivity|].
  apply (notify_reaches_only_followers demo_state linha_101 15 "accident" eq_refl).
Defined.

Lemma rollback_clean s : session_clean (db s) → with_db rollback s = s.
Proof.
  destruct s as [[] ? ? ? ?]. unfold session_clean, with_db, rollback, with_rows.
  simpl. by intros ->.
Qed.

(** X15. With the store down, [notify_users_about_line_delay] swallows the
    error: it returns normally, having written no row and sent nothing; the
    only thing it leaves is one printed line. *)
Theorem notify_swallows_store_failure (s : State) (line : TransitLine.t)
    (delay_minutes : Z) (reason : string) (e : Exception) :
  session_clean (db s) →
  fault (db s) = Some e →
  notify_users_about_line_delay line delay_minutes reason s
  = (Ok tt, emit (EvPrint ("Erro ao notificar usuários: " +:+ str e)) s).
Proof.
  intros Hclean Hf.
  rewrite (notify_users_about_line_delay_fault _ _ _ s e Hf).
  f_equal. by apply rollback_clean.
Qed.

Lemma notify_swallows_store_failure_witness :
  session_clean (db demo_state_down) ∧
  fault (db demo_state_down) = Some (OperationalError "connection refused") ∧
  outcome (notify_users_about_line_delay linha_101 15 "accident") demo_state_down
  = Ok tt.
Proof.
  split_and!; [reflexivity..|]. unfold outcome.
  by rewrite (notify_swallows_store_failure demo_state_down linha_101 15
                "accident" (OperationalError "connection refused")
                eq_refl eq_refl).
Defined.

(** ** The delay monitor, continued *)

(** X19. Left to itself, the delay monitor never notifies anyone: however
    many rounds it runs, store up or down, it leaves the store and the
    registry as they are and puts nothing on the wire; it only sleeps, 60
    seconds a round. *)
Theorem monitor_line_delays_never_notifies (fuel round : nat) (s : State) :
  let s' := exec (monitor_line_delays (λ _ s, s) fuel round) s in
  db s' = db s ∧
  active_connections s' = active_connections s ∧
  clock s' = clock s + 60 * Z.of_nat fuel ∧
  ∃ evs, trace s' = trace s ++ evs ∧ sends_of evs = [].
Proof.
  intros s'. subst s'. revert round s.
  induction fuel as [|fuel IH]; intros round s.
  - unfold exec. simpl. split_and!; [done..|lia|].
    exists []. by rewrite app_nil_r.
  - unfold exec, monitor_line_delays.
    rewrite (while_true_next _ _ _ _ s _ (monitor_line_delays_iteration_returns s)).
    destruct (IH (S round) (exec monitor_line_delays_iteration s))
      as (Hdb & Hac & Hclock & evs & Htrace & Hsends).
    unfold exec, monitor_line_delays in *.
    rewrite Hdb, Hac, Hclock, Htrace.
    rewrite monitor_line_delays_iteration_cases. cbn [snd].
    destruct (fault (db s)) as [e|]; simpl.
    + split_and!; [done..|lia|].
      exists ([EvPrint ("Erro ao monitorar atrasos: " +:+ str e); EvSleep 60] ++ evs).
      split; [by rewrite <- !app_assoc|]. by rewrite sends_of_app, Hsends.
    + split_and!; [done..|lia|].
      exists ([EvSleep 60] ++ evs).
      split; [by rewrite <- !app_assoc|]. by rewrite sends_of_app, Hsends.
Qed.

(** ** The balance monitor, continued *)

(** X16. Left to itself, the balance monitor never notifies anyone: however
    many rounds it runs, whatever the users and their card balances, store
    up or down, it leaves the rows and the registry as they are and puts
    nothing on the wire; it only sleeps, 30 seconds a round. *)
Theorem monitor_low_balance_never_notifies (fuel round : nat) (s : State) :
  let s' := exec (monitor_low_balance (λ _ s, s) fuel round) s in
  rows (db s') = rows (db s) ∧
  active_connections s' = active_connections s ∧
  clock s' = clock s + 30 * Z.of_nat fuel ∧
  ∃ evs, trace s' = trace s ++ evs ∧ sends_of evs = [].
Proof.
  intros s'. subst s'. revert round s.
  induction fuel as [|fuel IH]; intros round s.
  - unfold exec. simpl. split_and!; [done..|lia|].
    exists []. by rewrite app_nil_r.
  - destruct (monitor_low_balance_iteration_quiet s)
      as (s1 & evs1 & E & Hrows1 & Hac1 & Hclock1 & Htrace1 & Hsends1 & _).
    unfold exec, monitor_low_balance.
    rewrite (while_true_next _ _ _ _ s s1 E).
    destruct (IH (S round) s1) as (Hrows & Hac & Hclock & evs & Htrace & Hsends).
    unfold exec, monitor_low_balance in *.
    rewrite Hrows, Hac, Hclock, Htrace, Hrows1, Hac1, Hclock1, Htrace1.
    split_and!; [done..|lia|].
    exists ((evs1 ++ [EvSleep 30]) ++ evs).
    split; [by rewrite <- !app_assoc|].
    by rewrite !sends_of_app, Hsends1, Hsends.
Qed.

(** X17. With the store up and at least one user in the table, a round of
    the balance monitor comes to nothing whatever the card balances: the
    read of [user.balance] for the first user raises [AttributeError], the
    round prints it and sleeps 30 seconds, and nothing is written, committed
    or sent. With the store up and no user, the round commits and sleeps. *)
Theorem balance_round_stops_at_first_user (s : State) :
  fault (db s) = None →
  monitor_low_balance_iteration s
  = (Ok tt,
     emit (EvSleep 30)
       (with_clock (Z.add 30)
          (match users (db s) with
           | [] => with_db commit s
           | _ :: _ =>
               emit (EvPrint "Erro ao monitorar saldo: 'User' object has no attribute 'balance'")
                 s
           end))).
Proof.
  intros Hf. destruct (users (db s)) as [|user us] eqn:Hu.
  - by apply monitor_low_balance_iteration_no_users.
  - apply monitor_low_balance_iteration_attribute_error; [done|].
    by rewrite Hu.
Qed.

Lemma balance_round_stops_at_first_user_witness :
  fault (db demo_state_notified) = None ∧
  rows (db (exec monitor_low_balance_iteration demo_state_notified))
  = rows (db demo_state_notified).
Proof.
  split; [reflexivity|]. unfold exec.
  by rewrite (balance_round_stops_at_first_user demo_state_notified eq_refl).
Defined.

Lemma websocket_endpoint_escapes_witness :
  (websocket_notifications (λ _ s, s) 12%nat
     (Raise (HTTPException 401 "invalid token")) 0
     (RuntimeError "client left") demo_state).2
  = emit (EvPrint "Erro no WebSocket: 401: invalid token") demo_state.
Proof.
  destruct (websocket_endpoint_escapes (λ _ s, s) 12%nat
              (Raise (HTTPException 401 "invalid token")) 0%nat
              (RuntimeError "client left") demo_state) as (_ & _ & Hstate).
  exact (Hstate (HTTPException 401 "invalid token") eq_refl).
Defined.

Lemma mark_notification_read_idempotent_and_owned_witness :
  rows (db (exec (mark_notification_read 1 rui)
              demo_state_notified)) !! 0%nat
  = rows (db demo_state_notified) !! 0%nat.
Proof.
  destruct (mark_notification_read_idempotent_and_owned
              demo_state_notified 1 rui)
    as [_ Hother].
  rewrite (Hother 0%nat _ eq_refl).
  - reflexivity.
  - simpl. intros [_ Howner]. discriminate Howner.
Defined.
